(** * Compliance-action recorder and reader: ledger, simulation stand-in and
      relational index

    A shallow embedding of the write and query paths of the compliance
    backend:

    - [backend/src/app.js]: [connectToBlockchain], [SimulationMode], the
      routes [POST /api/compliance/action] and [GET /api/compliance/actions],
      [triggerEnforcement], [startServer];
    - [blockchain/chaincode/javascript/compliance-contract.js]:
      [ExecuteComplianceAction], [QueryAllActions];
    - the compliance router (routes [GET /compliance/actions] and
      [GET /compliance/actions/:id]) that reads the relational index;
    - the rest of the chaincode ([InitLedger], the policy and decision
      methods, [QueryAction]), the error middleware
      ([middleware/errorHandler.js]) and the dashboard's pager (class
      [ComplianceManager]).

    JavaScript objects are finite maps from property names to JSON values, an
    absent property being [undefined].  Everything the handlers obtain from
    outside the process (identifiers, clock readings, random digits, whether
    the Fabric gateway or the PostgreSQL pool answers) is supplied per request
    by a [World] record, so every handler is a function that can be run. *)

From Stdlib Require Import ZArith QArith String Ascii List Bool Lia.
From Stdlib Require DecimalString DecimalNat.
From Stdlib Require Import Sorted.
From stdpp Require Import base option gmap strings list fin_maps.
Import ListNotations.

Local Open Scope string_scope.
Local Open Scope Z_scope.

(** ** JSON values and the JavaScript operators the handlers apply to them *)

Module Js.

(** A parsed JSON document.  Numbers are the rationals their literals
    denote; the handlers never compute with them, they only test them for
    truthiness and pass them on. *)
#[warnings="-register-all"]
Inductive json : Type :=
| JNull
| JBool (b : bool)
| JNum (q : Q)
| JStr (s : string)
| JArr (l : list json)
| JObj (m : gmap string json).

(** ToBoolean on a JSON value. *)
Definition truthy_val (v : json) : bool :=
  match v with
  | JNull => false
  | JBool b => b
  | JNum q => negb (Qnum q =? 0)
  | JStr s => negb (String.eqb s "")
  | JArr _ | JObj _ => true
  end.

(** ToBoolean on the result of a property read ([None] is [undefined]). *)
Definition truthy (v : option json) : bool :=
  match v with
  | Some x => truthy_val x
  | None => false
  end.

(** [a || b] with [a] a property read and [b] a literal. *)
Definition or_else (a : option json) (b : json) : json :=
  match a with
  | Some x => if truthy_val x then x else b
  | None => b
  end.

(** [{ ...base, ...over }]: properties of [over] win. *)
Definition spread (base over : gmap string json) : gmap string json :=
  over ∪ base.

(** A property whose value may be [undefined]; [JSON.stringify] drops such
    properties, so after the round trip through the wire it is absent. *)
Definition set_opt (k : string) (v : option json)
    (o : gmap string json) : gmap string json :=
  match v with
  | Some x => <[k := x]> o
  | None => o
  end.

(** Text made of ASCII characters only.  On such text the model of
    [toUpperCase] below is the JavaScript method; other characters are left
    as they are here, whereas JavaScript also maps the letters among them, so
    statements that depend on an upper-cased value are made for ASCII text. *)
Fixpoint is_ascii_text (t : string) : bool :=
  match t with
  | EmptyString => true
  | String c r => (nat_of_ascii c <? 128)%nat && is_ascii_text r
  end.

(** [String.prototype.toUpperCase], on ASCII text. *)
Definition upper_ascii (c : ascii) : ascii :=
  let n := nat_of_ascii c in
  if ((97 <=? n) && (n <=? 122))%nat then ascii_of_nat (n - 32) else c.

Fixpoint toUpperCase (s : string) : string :=
  match s with
  | EmptyString => EmptyString
  | String c r => String (upper_ascii c) (toUpperCase r)
  end.

(** [parseInt(s)] with no radix argument: leading white space, an optional
    sign, an optional [0x] prefix, then the longest run of digits, and the
    value read is returned as a Number: exact up to
    [Number.MAX_SAFE_INTEGER], the nearest double beyond it.  [None] is
    [NaN]; it also stands for the [Infinity] that a run of digits beyond the
    range of doubles reads as, which is no more an integer than [NaN] is. *)
Definition is_space (c : ascii) : bool :=
  let n := nat_of_ascii c in
  ((n =? 32) || ((9 <=? n) && (n <=? 13)))%nat.

Fixpoint trim_start (s : string) : string :=
  match s with
  | String c r => if is_space c then trim_start r else s
  | EmptyString => s
  end.

Definition digit_value (c : ascii) : option Z :=
  let n := nat_of_ascii c in
  if ((48 <=? n) && (n <=? 57))%nat then Some (Z.of_nat (n - 48))
  else if ((97 <=? n) && (n <=? 102))%nat then Some (Z.of_nat (n - 87))
  else if ((65 <=? n) && (n <=? 70))%nat then Some (Z.of_nat (n - 55))
  else None.

(** Value of the longest prefix of [s] made of digits below [radix],
    continuing from [acc]; [seen] records whether a digit was read. *)
Fixpoint digits (radix : Z) (seen : bool) (acc : Z) (s : string) : option Z :=
  match s with
  | String c r =>
      match digit_value c with
      | Some d =>
          if d <? radix then digits radix true (acc * radix + d) r
          else if seen then Some acc else None
      | None => if seen then Some acc else None
      end
  | EmptyString => if seen then Some acc else None
  end.

(** The Number value of a non-negative integer: itself below [2^53];
    beyond, the nearest multiple of the spacing of doubles at its size, ties
    going to the even mantissa; [None] from [2^1024] on ([Infinity]). *)
Definition to_double (n : Z) : option Z :=
  if n <? 2 ^ 53 then Some n
  else
    let e := Z.log2 n - 52 in
    let q := n / 2 ^ e in
    let r := n mod 2 ^ e in
    let half := 2 ^ (e - 1) in
    let q' := if (half <? r) || ((r =? half) && Z.odd q) then q + 1 else q in
    if q' * 2 ^ e <? 2 ^ 1024 then Some (q' * 2 ^ e) else None.

Definition unsigned_int (s : string) : option Z :=
  match s with
  | String "0" (String "x" r) | String "0" (String "X" r) =>
      digits 16 false 0 r ≫= to_double
  | _ => digits 10 false 0 s ≫= to_double
  end.

Definition parseInt (s : string) : option Z :=
  match trim_start s with
  | String "-" r => Z.opp <$> unsigned_int r
  | String "+" r => unsigned_int r
  | t => unsigned_int t
  end.

Definition MAX_SAFE_INTEGER : Z := 9007199254740991.

End Js.
Import Js.

(** ** Process state, outside world and the handler monad *)

(** A row of table [compliance_actions], with the columns the handlers write
    or read.  [None] is SQL [NULL].  The table's declaration is not part of
    the sources at hand: [created_at] is taken to be filled by the database
    when the row is inserted. *)
Record Row : Type := mkRow {
  row_id : option json;
  policy_id : option json;
  action_taken : option json;
  threat_description : json;
  confidence : json;
  status : json;
  timestamp : string;
  created_at : Z
}.

(** A row of table [policies], joined to the actions by the router. *)
Record Policy : Type := mkPolicy {
  pol_id : string;
  standard : string;
  control : string;
  description : string;
  severity : string
}.

(** Mutable state reachable from the handlers: the module-level variables of
    [app.js] ([blockchainEnabled], [simulationContract.actions]), the world
    state and event log of the Fabric channel, and the two tables. *)
Record State : Type := mkState {
  blockchainEnabled : bool;
  simActions : list (gmap string json);
  worldState : gmap string (gmap string json);
  ledgerEvents : list (string * gmap string json);
  compliance_actions : list Row;
  policies : list Policy
}.

(** What the outside world answers during one request. *)
Record World : Type := mkWorld {
  uuid : string;                 (* uuidv4() *)
  ledgerClock : string;          (* new Date().toISOString() in the ledger write *)
  random36 : string;             (* Math.random().toString(36).substr(2, 9) *)
  mirrorClock : string;          (* new Date().toISOString() in the INSERT *)
  dbClock : Z;                   (* the database's CURRENT_TIMESTAMP *)
  fabricFault : option string;   (* Some m: the gateway call rejects with Error(m) *)
  dbFault : option string        (* Some m: pool.query rejects with Error(m) *)
}.

Definition set_simActions (l : list (gmap string json)) (s : State) : State :=
  mkState (blockchainEnabled s) l (worldState s) (ledgerEvents s)
          (compliance_actions s) (policies s).

Definition set_worldState (m : gmap string (gmap string json)) (s : State) : State :=
  mkState (blockchainEnabled s) (simActions s) m (ledgerEvents s)
          (compliance_actions s) (policies s).

Definition set_ledgerEvents (l : list (string * gmap string json)) (s : State) : State :=
  mkState (blockchainEnabled s) (simActions s) (worldState s) l
          (compliance_actions s) (policies s).

Definition set_compliance_actions (l : list Row) (s : State) : State :=
  mkState (blockchainEnabled s) (simActions s) (worldState s) (ledgerEvents s)
          l (policies s).

Definition set_blockchainEnabled (b : bool) (s : State) : State :=
  mkState b (simActions s) (worldState s) (ledgerEvents s)
          (compliance_actions s) (policies s).

(** Result of running a piece of handler code: a value, or a thrown
    [Error] with its message.  State changes made before a throw stay. *)
Inductive outcome (A : Type) : Type :=
| Ok (a : A)
| Thrown (message : string).
Arguments Ok {A} a.
Arguments Thrown {A} message.

Definition M (A : Type) : Type := State -> outcome A * State.

Definition ret {A} (a : A) : M A := fun s => (Ok a, s).

Definition throw {A} (message : string) : M A := fun s => (Thrown message, s).

Definition bind {A B} (c : M A) (k : A -> M B) : M B :=
  fun s =>
    match c s with
    | (Ok a, s') => k a s'
    | (Thrown m, s') => (Thrown m, s')
    end.

(** [try { c } catch (error) { h error.message }] *)
Definition try_catch {A} (c : M A) (h : string -> M A) : M A :=
  fun s =>
    match c s with
    | (Ok a, s') => (Ok a, s')
    | (Thrown m, s') => h m s'
    end.

Definition gets {A} (f : State -> A) : M A := fun s => (Ok (f s), s).

Definition modify (f : State -> State) : M unit := fun s => (Ok tt, f s).

Declare Scope js_scope.
Delimit Scope js_scope with js.
Notation "'let*' x ':=' c 'in' k" := (bind c (fun x => k))
  (at level 10, x name, c at level 100, k at level 200) : js_scope.
Notation "c ;; k" := (bind c (fun _ => k))
  (at level 100, k at level 200, right associativity) : js_scope.

(** The body of [GET /api/blockchain/status]: [{ enabled, mode }]. *)
Inductive mode_report : Type :=
| Report (enabled : bool) (mode : string).

(** What a handler sends back: [res.status(code).json(payload)]. *)
Inductive payload : Type :=
| PRecord (record : gmap string json)
| PActions (actions : list (gmap string json))
| PRows (rows : list Row)
| PJoined (rows : list (Row * option Policy))
| PJoinedRow (row : Row * option Policy)
| PStatus (report : mode_report)
| PError (error : string).

Record response : Type := Resp { code : nat; body : payload }.

Local Open Scope js_scope.

(** ** The two ledger backends *)

(** [SimulationMode.submitTransaction] (app.js).  The argument is
    [JSON.stringify(actionData)] and is parsed again at once; on parsed
    request bodies that round trip is the identity.  The object literal is
    evaluated left to right: [id], then the spread of [actionData], then
    [status], [timestamp], [blockHash]. *)
Definition simulated_record (w : World) (actionData : gmap string json)
    : gmap string json :=
  <["blockHash" := JStr ("simulated-" ++ random36 w)]>
    (<["timestamp" := JStr (ledgerClock w)]>
      (<["status" := JStr "EXECUTED"]>
        (spread {["id" := JStr (uuid w)]} actionData))).

Definition SimulationMode_submitTransaction (w : World)
    (actionData : gmap string json) : M (gmap string json) :=
  let complianceRecord := simulated_record w actionData in
  modify (fun s => set_simActions (simActions s ++ [complianceRecord]) s) ;;
  ret complianceRecord.

(** [SimulationMode.evaluateTransaction] (app.js). *)
Definition SimulationMode_evaluateTransaction : M (list (gmap string json)) :=
  gets simActions.

(** The record built by [ExecuteComplianceAction] (compliance-contract.js),
    as it reads after [JSON.stringify]. *)
Definition chaincode_record (w : World) (actionData : gmap string json)
    : gmap string json :=
  <["docType" := JStr "complianceAction"]>
    (set_opt "targetEndpoints" (actionData !! "targetEndpoints")
      (set_opt "confidence" (actionData !! "confidence")
        (<["status" := JStr "EXECUTED"]>
          (set_opt "actionTaken" (actionData !! "action")
            (set_opt "threatDescription" (actionData !! "threatDescription")
              (set_opt "policyId" (actionData !! "policyId")
                (<["timestamp" := JStr (ledgerClock w)]>
                  {["id" := JStr (uuid w)]}))))))).

(** [ExecuteComplianceAction] (compliance-contract.js): [putState] under the
    fresh id, [setEvent], and the record as the transaction's result. *)
Definition ExecuteComplianceAction (w : World)
    (actionData : gmap string json) : M (gmap string json) :=
  let actionId := uuid w in
  let complianceRecord := chaincode_record w actionData in
  modify (fun s => set_worldState (<[actionId := complianceRecord]> (worldState s)) s) ;;
  modify (fun s => set_ledgerEvents
            (ledgerEvents s ++ [("ComplianceActionExecuted", complianceRecord)]) s) ;;
  ret complianceRecord.

Definition is_complianceAction (record : gmap string json) : bool :=
  match record !! "docType" with
  | Some (JStr t) => String.eqb t "complianceAction"
  | _ => false
  end.

(** [QueryAllActions] (compliance-contract.js): a scan of the whole key
    range, keeping the entries whose [docType] is [complianceAction]. *)
Definition QueryAllActions : M (list (gmap string json)) :=
  let* ws := gets worldState in
  ret (List.filter is_complianceAction (snd <$> map_to_list ws)).

(** The gateway's [contract.submitTransaction('ExecuteComplianceAction', _)]
    and [contract.evaluateTransaction('QueryAllActions')]: the chaincode runs
    unless the network call fails. *)
Definition contract_submitTransaction (w : World)
    (actionData : gmap string json) : M (gmap string json) :=
  match fabricFault w with
  | Some m => throw m
  | None => ExecuteComplianceAction w actionData
  end.

Definition contract_evaluateTransaction (w : World) : M (list (gmap string json)) :=
  match fabricFault w with
  | Some m => throw m
  | None => QueryAllActions
  end.

(** ** The relational index *)

(** The [INSERT INTO compliance_actions] of the create route. *)
Definition pool_insert (w : World) (r : Row) : M unit :=
  match dbFault w with
  | Some m => throw m
  | None => modify (fun s => set_compliance_actions (compliance_actions s ++ [r]) s)
  end.

(** [triggerEnforcement] (app.js): two log lines inside a [try]. *)
Definition triggerEnforcement (action : gmap string json) : M unit :=
  try_catch (ret tt) (fun _ => ret tt).

(** ** Route [POST /api/compliance/action] (app.js) *)

Definition mirror_row (w : World) (complianceRecord : gmap string json) : Row :=
  {| row_id := complianceRecord !! "id";
     policy_id := complianceRecord !! "policyId";
     action_taken := complianceRecord !! "action";
     threat_description := or_else (complianceRecord !! "threatDescription") (JStr "");
     confidence := or_else (complianceRecord !! "confidence") (JNum 0);
     status := or_else (complianceRecord !! "status") (JStr "PENDING");
     timestamp := mirrorClock w;
     created_at := dbClock w |}.

Definition post_compliance_action_body (w : World)
    (actionData : gmap string json) : M response :=
  if negb (truthy (actionData !! "policyId")) || negb (truthy (actionData !! "action"))
  then ret (Resp 400 (PError "Missing required fields"))
  else
    let* enabled := gets blockchainEnabled in
    let* complianceRecord :=
      (if enabled : bool
       then contract_submitTransaction w actionData
       else SimulationMode_submitTransaction w actionData) in
    try_catch (pool_insert w (mirror_row w complianceRecord)) (fun _ => ret tt) ;;
    triggerEnforcement complianceRecord ;;
    ret (Resp 200 (PRecord complianceRecord)).

Definition post_compliance_action (w : World)
    (actionData : gmap string json) : M response :=
  try_catch (post_compliance_action_body w actionData)
            (fun m => ret (Resp 500 (PError m))).

(** ** Queries on the relational index *)

(** [ORDER BY key DESC]: a stable insertion sort; [before y x] says that
    [y] sorts strictly ahead of [x]. *)
Fixpoint insert_by {A} (before : A -> A -> bool) (x : A) (l : list A) : list A :=
  match l with
  | [] => [x]
  | y :: r => if before y x then y :: insert_by before x r else x :: l
  end.

Definition order_by {A} (before : A -> A -> bool) (l : list A) : list A :=
  foldr (insert_by before) [] l.

(** [column = $n] for a text parameter: never true on [NULL]; the columns
    hold the values the [INSERT] was given. *)
Definition sql_eq (column : option json) (param : string) : bool :=
  match column with
  | Some (JStr v) => String.eqb v param
  | _ => false
  end.

(** [compliance_actions ca LEFT JOIN policies p ON ca.policy_id = p.id] *)
Definition left_join (actions : list Row) (pols : list Policy)
    : list (Row * option Policy) :=
  flat_map
    (fun ca =>
       match List.filter (fun p => sql_eq (policy_id ca) (pol_id p)) pols with
       | [] => [(ca, None)]
       | ps => map (fun p => (ca, Some p)) ps
       end)
    actions.

(** The [WHERE] clause the router builds: the conjuncts are added only for
    the parameters pushed. *)
Definition where_clause (severityParam statusParam : option string)
    (r : Row * option Policy) : bool :=
  match severityParam with
  | Some v =>
      match snd r with
      | Some p => String.eqb (severity p) v
      | None => false
      end
  | None => true
  end
  &&
  match statusParam with
  | Some v => sql_eq (Some (status (fst r))) v
  | None => true
  end.

(** A [LIMIT] or [OFFSET] parameter as PostgreSQL takes it, a [bigint]:
    [NaN], negative numbers and numbers from [2^63] on make the statement
    fail.  Up to [MAX_SAFE_INTEGER] the count is the number itself.  Between
    that and [2^63] the driver sends the shortest decimal text that reads
    back as the same double, which can differ from the double in its last
    digits; the statements about pages are made for parameters up to
    [MAX_SAFE_INTEGER]. *)
Definition sql_count (n : option Z) : option nat :=
  match n with
  | Some k => if (0 <=? k) && (k <? 2 ^ 63) then Some (Z.to_nat k) else None
  | None => None
  end.

Definition newer_first (y x : Row * option Policy) : bool :=
  created_at (fst x) <? created_at (fst y).

(** The [SELECT] of route [GET /compliance/actions]. *)
Definition pool_select_page (w : World) (severityParam statusParam : option string)
    (limit offset : option Z) : M (list (Row * option Policy)) :=
  match dbFault w with
  | Some m => throw m
  | None =>
      match sql_count limit, sql_count offset with
      | Some l, Some o =>
          gets (fun s =>
            take l (drop o
              (order_by newer_first
                (List.filter (where_clause severityParam statusParam)
                  (left_join (compliance_actions s) (policies s))))))
      | _, _ => throw "invalid LIMIT or OFFSET"
      end
  end.

(** The [SELECT ... WHERE ca.id = $1] of route [GET /compliance/actions/:id]. *)
Definition pool_select_by_id (w : World) (id : string)
    : M (list (Row * option Policy)) :=
  match dbFault w with
  | Some m => throw m
  | None =>
      gets (fun s =>
        List.filter (fun r => sql_eq (row_id (fst r)) id)
          (left_join (compliance_actions s) (policies s)))
  end.

(** [SELECT * FROM compliance_actions ORDER BY timestamp DESC] (app.js). *)
Definition pool_select_all (w : World) : M (list Row) :=
  match dbFault w with
  | Some m => throw m
  | None =>
      gets (fun s =>
        order_by (fun y x => String.ltb (timestamp x) (timestamp y))
                 (compliance_actions s))
  end.

(** ** The reading routes *)

(** Route [GET /api/compliance/actions] (app.js). *)
Definition get_api_compliance_actions (w : World) : M response :=
  try_catch
    (let* enabled := gets blockchainEnabled in
     let* actions :=
       (if enabled : bool
        then contract_evaluateTransaction w
        else SimulationMode_evaluateTransaction) in
     ret (Resp 200 (PActions actions)))
    (fun _ =>
       try_catch
         (let* rows := pool_select_all w in
          ret (Resp 200 (PRows rows)))
         (fun _ => ret (Resp 500 (PError "Failed to fetch actions from all sources")))).

(** The query string of route [GET /compliance/actions]. *)
Record ListQuery : Type := mkListQuery {
  q_severity : option string;
  q_status : option string;
  q_limit : option string;
  q_offset : option string
}.

(** [if (v) params.push(v.toUpperCase())]: the empty string is falsy. *)
Definition filter_param (v : option string) : option string :=
  match v with
  | Some t => if String.eqb t "" then None else Some (toUpperCase t)
  | None => None
  end.

(** [parseInt(v)] where [v] defaults to the number [dflt]. *)
Definition int_param (v : option string) (dflt : Z) : option Z :=
  match v with
  | Some t => parseInt t
  | None => Some dflt
  end.

(** Route [GET /compliance/actions] (compliance router). *)
Definition get_compliance_actions (w : World) (q : ListQuery) : M response :=
  try_catch
    (let* rows :=
       pool_select_page w (filter_param (q_severity q)) (filter_param (q_status q))
                        (int_param (q_limit q) 100) (int_param (q_offset q) 0) in
     ret (Resp 200 (PJoined rows)))
    (fun m => ret (Resp 500 (PError m))).

(** A filter parameter that is absent or ASCII text. *)
Definition ascii_param (v : option string) : Prop :=
  match v with
  | Some t => is_ascii_text t = true
  | None => True
  end.

(** The joined rows the [WHERE] clause of a list query keeps. *)
Definition matching (q : ListQuery) (s : State) : list (Row * option Policy) :=
  List.filter (where_clause (filter_param (q_severity q)) (filter_param (q_status q)))
              (left_join (compliance_actions s) (policies s)).

(** Route [GET /compliance/actions/:id] (compliance router). *)
Definition get_compliance_action_by_id (w : World) (id : string) : M response :=
  try_catch
    (let* rows := pool_select_by_id w id in
     match rows with
     | [] => ret (Resp 404 (PError "Compliance action not found"))
     | r :: _ => ret (Resp 200 (PJoinedRow r))
     end)
    (fun m => ret (Resp 500 (PError m))).

(** Route [GET /api/blockchain/status] (app.js): it only reads the flag. *)
Definition get_api_blockchain_status : M response :=
  let* enabled := gets blockchainEnabled in
  ret (Resp 200 (PStatus (Report enabled
                            (if enabled : bool then "production" else "simulation")))).

(** ** Start-up: [connectToBlockchain] and [startServer] (app.js) *)

(** What [connectToBlockchain] finds when the process starts. *)
Record Deployment : Type := mkDeployment {
  FABRIC_CONFIG_PATH : option string;   (* process.env.FABRIC_CONFIG_PATH *)
  ccpExists : bool;                     (* fs.existsSync(ccpPath) *)
  fabricModuleLoads : bool;             (* require('fabric-network') returns *)
  ccpParses : bool;                     (* JSON.parse(fs.readFileSync(ccpPath)) returns *)
  walletOpens : bool;                   (* newFileSystemWallet and wallet.get resolve *)
  adminIdentity : bool;                 (* wallet.get('admin') is truthy *)
  gatewayConnects : bool;               (* gateway.connect resolves *)
  channelFound : bool                   (* getNetwork and getContract return *)
}.

(** A call that throws unless [ok]. *)
Definition attempt (ok : bool) (what : string) : M unit :=
  if ok then ret tt else throw what.

Definition connectToBlockchain (d : Deployment) : M unit :=
  try_catch
    (if negb (match FABRIC_CONFIG_PATH d with
              | Some p => negb (String.eqb p "")
              | None => false
              end)
     then ret tt
     else if negb (ccpExists d) then ret tt
     else
       attempt (fabricModuleLoads d) "Cannot find module 'fabric-network'" ;;
       attempt (ccpParses d) "connection profile unreadable" ;;
       attempt (walletOpens d) "wallet unavailable" ;;
       if negb (adminIdentity d) then ret tt
       else
         attempt (gatewayConnects d) "gateway connect failed" ;;
         attempt (channelFound d) "channel or contract unavailable" ;;
         modify (set_blockchainEnabled true))
    (fun _ => modify (set_blockchainEnabled false)).

(** The stores that outlive the process: the channel's world state and
    events, and the two tables. *)
Record Stores : Type := mkStores {
  st_worldState : gmap string (gmap string json);
  st_ledgerEvents : list (string * gmap string json);
  st_compliance_actions : list Row;
  st_policies : list Policy
}.

(** The module-level initialisers of app.js: [blockchainEnabled = false] and
    [simulationContract = new SimulationMode()]. *)
Definition module_init (e : Stores) : State :=
  mkState false [] (st_worldState e) (st_ledgerEvents e)
          (st_compliance_actions e) (st_policies e).

(** [startServer]: [await connectToBlockchain()], then [app.listen]. *)
Definition startServer (d : Deployment) (e : Stores) : State :=
  snd (connectToBlockchain d (module_init e)).

(** ** Requests served after start-up *)

Inductive request : Type :=
| PostComplianceAction (actionData : gmap string json)
| GetApiComplianceActions
| GetApiBlockchainStatus
| GetComplianceActions (q : ListQuery)
| GetComplianceActionById (id : string).

Definition route (w : World) (r : request) : M response :=
  match r with
  | PostComplianceAction actionData => post_compliance_action w actionData
  | GetApiComplianceActions => get_api_compliance_actions w
  | GetApiBlockchainStatus => get_api_blockchain_status
  | GetComplianceActions q => get_compliance_actions w q
  | GetComplianceActionById id => get_compliance_action_by_id w id
  end.

(** One request: the response sent and the state left behind.  An error
    escaping a handler would reach the error middleware of app.js. *)
Definition handle (w : World) (r : request) (s : State) : response * State :=
  match route w r s with
  | (Ok resp, s') => (resp, s')
  | (Thrown _, s') => (Resp 500 (PError "Internal server error"), s')
  end.

(** A sequence of requests, each with what the world answers during it. *)
Fixpoint run (trace : list (World * request)) (s : State) : list response * State :=
  match trace with
  | [] => ([], s)
  | (w, r) :: rest =>
      let '(resp, s') := handle w r s in
      let '(resps, s'') := run rest s' in
      (resp :: resps, s'')
  end.

(** The same world with a different answer from the Fabric gateway. *)
Definition with_fabricFault (f : option string) (w : World) : World :=
  mkWorld (uuid w) (ledgerClock w) (random36 w) (mirrorClock w) (dbClock w)
          f (dbFault w).

(** The same world with a different answer from the PostgreSQL pool. *)
Definition with_dbFault (f : option string) (w : World) : World :=
  mkWorld (uuid w) (ledgerClock w) (random36 w) (mirrorClock w) (dbClock w)
          (fabricFault w) f.

(** ** The rest of the chaincode (compliance-contract.js) *)

(** [ctx.stub.getState], [putState] and [setEvent].  A key that was never
    written reads as an empty buffer, here [None]. *)
Definition getState (key : string) : M (option (gmap string json)) :=
  gets (fun s => worldState s !! key).

Definition putState (key : string) (value : gmap string json) : M unit :=
  modify (fun s => set_worldState (<[key := value]> (worldState s)) s).

Definition setEvent (name : string) (value : gmap string json) : M unit :=
  modify (fun s => set_ledgerEvents (ledgerEvents s ++ [(name, value)]) s).

(** [PolicyExists]: [policyJSON && policyJSON.length > 0]. *)
Definition PolicyExists (policyId : string) : M bool :=
  let* policyJSON := getState policyId in
  ret (match policyJSON with Some _ => true | None => false end).

(** The object literal of [CreatePolicy]. *)
Definition policy_record (policyId standard control description requiredAction
    severity : string) : gmap string json :=
  <["docType" := JStr "policy"]>
    (<["severity" := JStr severity]>
      (<["requiredAction" := JStr requiredAction]>
        (<["description" := JStr description]>
          (<["control" := JStr control]>
            (<["standard" := JStr standard]>
              {["id" := JStr policyId]}))))).

(** [CreatePolicy]: refuses a key that is already taken. *)
Definition CreatePolicy (policyId standard control description requiredAction
    severity : string) : M (gmap string json) :=
  let* taken := PolicyExists policyId in
  if taken : bool
  then throw ("Policy " ++ policyId ++ " already exists")
  else
    let policy :=
      policy_record policyId standard control description requiredAction severity in
    putState policyId policy ;;
    ret policy.

(** [GetPolicy] *)
Definition GetPolicy (policyId : string) : M (gmap string json) :=
  let* policyJSON := getState policyId in
  match policyJSON with
  | None => throw ("Policy " ++ policyId ++ " does not exist")
  | Some policy => ret policy
  end.

(** The two baseline policies of [InitLedger]. *)
Definition baseline_policies : list (gmap string json) :=
  [ policy_record "pol-nist-ac-1" "NIST" "AC-1"
      "Limit system access to authorized users." "ACCESS_CONTROL" "HIGH";
    policy_record "pol-cis-2.1" "CIS" "CIS-2.1"
      "Disable SMBv1 protocol." "DISABLE_SMBv1" "CRITICAL" ].

Definition policy_key (policy : gmap string json) : string :=
  match policy !! "id" with
  | Some (JStr i) => i
  | _ => ""
  end.

(** [InitLedger]: [for (const policy of policies) putState(policy.id, policy)]. *)
Fixpoint put_policies (l : list (gmap string json)) : M unit :=
  match l with
  | [] => ret tt
  | policy :: rest => putState (policy_key policy) policy ;; put_policies rest
  end.

Definition InitLedger : M unit := put_policies baseline_policies.

(** [record.id.startsWith('pol-')]: a [TypeError] unless [record.id] is a
    string. *)
Definition id_startsWith_pol (id : option json) : outcome bool :=
  match id with
  | Some (JStr i) => Ok (String.prefix "pol-" i)
  | None => Thrown "Cannot read properties of undefined (reading 'startsWith')"
  | Some JNull => Thrown "Cannot read properties of null (reading 'startsWith')"
  | Some _ => Thrown "record.id.startsWith is not a function"
  end.

Definition is_policy (record : gmap string json) : bool :=
  match record !! "docType" with
  | Some (JStr t) => String.eqb t "policy"
  | _ => false
  end.

(** The test of [GetAllPolicies] on one scanned record:
    [record.docType === 'policy' || record.id.startsWith('pol-')]. *)
Definition policy_test (record : gmap string json) : outcome bool :=
  if is_policy record then Ok true else id_startsWith_pol (record !! "id").

(** The loop of [GetAllPolicies] over the scanned records. *)
Fixpoint scan_policies (records results : list (gmap string json))
    : outcome (list (gmap string json)) :=
  match records with
  | [] => Ok results
  | record :: rest =>
      match policy_test record with
      | Ok true => scan_policies rest (results ++ [record])
      | Ok false => scan_policies rest results
      | Thrown m => Thrown m
      end
  end.

Definition GetAllPolicies : M (list (gmap string json)) :=
  fun s => (scan_policies (snd <$> map_to_list (worldState s)) [], s).

(** Reading a property of a parsed payload: [null] throws, an object
    answers, any other value has no such property. *)
Definition get_prop (v : json) (k : string) : outcome (option json) :=
  match v with
  | JObj m => Ok (m !! k)
  | JNull => Thrown ("Cannot read properties of null (reading '" ++ k ++ "')")
  | _ => Ok None
  end.

(** The entry written by [executeDecision]. *)
Definition decision_entry (w : World) (txId : string) (decision metadata : option json)
    : gmap string json :=
  <["docType" := JStr "decision"]>
    (<["timestamp" := JStr (ledgerClock w)]>
      (set_opt "metadata" metadata
        (set_opt "decision" decision
          {["txId" := JStr txId]}))).

(** [executeDecision]; [obj] is [JSON.parse(payload)] and [txId] is
    [ctx.stub.getTxID()]. *)
Definition executeDecision (w : World) (txId : string) (obj : json)
    : M (gmap string json) :=
  match get_prop obj "decision", get_prop obj "metadata" with
  | Ok decision, Ok metadata =>
      let entry := decision_entry w txId decision metadata in
      putState ("audit_" ++ txId) entry ;;
      setEvent "DecisionExecuted" entry ;;
      ret {[ "txId" := JStr txId; "status" := JStr "SUCCESS" ]}
  | Thrown m, _ | _, Thrown m => throw m
  end.

Definition is_decision (record : gmap string json) : bool :=
  match record !! "docType" with
  | Some (JStr t) => String.eqb t "decision"
  | _ => false
  end.

(** [QueryAllDecisions] *)
Definition QueryAllDecisions : M (list (gmap string json)) :=
  let* ws := gets worldState in
  ret (List.filter is_decision (snd <$> map_to_list ws)).

(** [QueryAction] *)
Definition QueryAction (actionId : string) : M (gmap string json) :=
  let* actionJSON := getState actionId in
  match actionJSON with
  | None => throw ("Action " ++ actionId ++ " does not exist")
  | Some action => ret action
  end.

(** [QueryDecision] *)
Definition QueryDecision (txId : string) : M (gmap string json) :=
  let* decisionJSON := getState ("audit_" ++ txId) in
  match decisionJSON with
  | None => throw ("Decision with txId " ++ txId ++ " does not exist")
  | Some decision => ret decision
  end.

(** ** The error middleware (middleware/errorHandler.js) *)

(** An [Error] as the middleware reads it; a [status] that is absent or 0 is
    falsy. *)
Record JsError : Type := mkJsError {
  err_message : string;
  err_stack : option string;
  err_status : option nat
}.

(** The JSON body of an error response; [None] is a property that is
    [undefined] and so left out. *)
Record ErrorBody : Type := mkErrorBody {
  eb_error : string;
  eb_message : option string;
  eb_stack : option string
}.

(** The entry given to [logger.error]. *)
Record LogEntry : Type := mkLogEntry {
  log_message : string;
  log_stack : option string;
  log_url : string;
  log_method : string
}.

(** [errorHandler], with [process.env.NODE_ENV] and the request's [url] and
    [method]: what is logged, then the status and body sent. *)
Definition errorHandler (NODE_ENV : option string) (url method : string)
    (err : JsError) : LogEntry * (nat * ErrorBody) :=
  (mkLogEntry (err_message err) (err_stack err) url method,
   if bool_decide (NODE_ENV = Some "production")
   then (500%nat, mkErrorBody "Internal Server Error" (Some "Something went wrong!") None)
   else
     (match err_status err with
      | Some n => if (n =? 0)%nat then 500%nat else n
      | None => 500%nat
      end,
      mkErrorBody (err_message err) None
        (if bool_decide (NODE_ENV = Some "development") then err_stack err else None))).

(** [notFoundHandler]: the error passed to [next]; [stack] is the trace the
    engine attached to the new [Error]. *)
Definition notFoundHandler (originalUrl : string) (stack : string) : JsError :=
  mkJsError ("Not found - " ++ originalUrl) (Some stack) (Some 404%nat).

(** ** The dashboard's pager (class [ComplianceManager]) *)

(** [String.prototype.toLowerCase], on ASCII text. *)
Definition lower_ascii (c : ascii) : ascii :=
  let n := nat_of_ascii c in
  if ((65 <=? n) && (n <=? 90))%nat then ascii_of_nat (n + 32) else c.

Fixpoint toLowerCase (s : string) : string :=
  match s with
  | EmptyString => EmptyString
  | String c r => String (lower_ascii c) (toLowerCase r)
  end.

(** [String(n)] for a non-negative integer, as [URLSearchParams] applies it
    to the numbers it is given.  The pager's numbers are naturals here; they
    are the JavaScript numbers as long as they stay below [2^53], which the
    statements about the pager ensure by bounding the number of events. *)
Definition Number_toString (n : nat) : string :=
  DecimalString.NilZero.string_of_uint (Nat.to_uint n).

Record ComplianceManager : Type := mkComplianceManager {
  currentPage : nat;
  pageSize : nat;
  filter_severity : string;
  filter_status : string;
  filter_search : string
}.

(** The constructor. *)
Definition new_ComplianceManager : ComplianceManager :=
  mkComplianceManager 1 20 "" "" "".

(** The entries of the [URLSearchParams] built by [loadComplianceActions],
    in the order of the object literal: [limit], [offset], then the spread
    of the filters. *)
Definition loadComplianceActions_params (m : ComplianceManager)
    : list (string * string) :=
  [("limit", Number_toString (pageSize m));
   ("offset", Number_toString ((currentPage m - 1) * pageSize m));
   ("severity", filter_severity m);
   ("status", filter_status m);
   ("search", filter_search m)].

(** What the pager shows after a load: the rows of the answer under the
    label [Page n], or the error notice. *)
Inductive pager_view : Type :=
| Displayed (actions : payload) (page : nat)
| ErrorShown (message : string).

(** [loadComplianceActions]: [fetch('/api/compliance/actions?' + params)].
    In these sources that URL is the list route of app.js, which reads
    nothing of the query string.  [response.ok] is a status from 200 to
    299. *)
Definition loadComplianceActions (w : World) (m : ComplianceManager) (s : State)
    : pager_view * State :=
  let params := loadComplianceActions_params m in
  let response := handle w GetApiComplianceActions s in
  if ((200 <=? code (fst response)) && (code (fst response) <=? 299))%nat
  then (Displayed (body (fst response)) (currentPage m), snd response)
  else (ErrorShown "Failed to load compliance actions", snd response).

Definition nextPage (m : ComplianceManager) : ComplianceManager :=
  mkComplianceManager (currentPage m + 1) (pageSize m)
                      (filter_severity m) (filter_status m) (filter_search m).

Definition previousPage (m : ComplianceManager) : ComplianceManager :=
  if (1 <? currentPage m)%nat
  then mkComplianceManager (currentPage m - 1) (pageSize m)
                           (filter_severity m) (filter_status m) (filter_search m)
  else m.

(** [applyFilters], with the three values read from the page. *)
Definition applyFilters (severity status search : string) (m : ComplianceManager)
    : ComplianceManager :=
  mkComplianceManager 1 (pageSize m) severity status (toLowerCase search).

(** What the user does with the pager; each of these ends in a call of
    [loadComplianceActions]. *)
Inductive pager_event : Type :=
| NextPage
| PreviousPage
| ApplyFilters (severity status search : string).

Definition pager_step (m : ComplianceManager) (e : pager_event) : ComplianceManager :=
  match e with
  | NextPage => nextPage m
  | PreviousPage => previousPage m
  | ApplyFilters severity status search => applyFilters severity status search m
  end.

Definition pager_run (events : list pager_event) : ComplianceManager :=
  fold_left pager_step events new_ComplianceManager.

(** Rows in the order [ORDER BY ca.created_at DESC] asks for. *)
Definition not_older (a b : Row * option Policy) : Prop :=
  created_at (fst b) <= created_at (fst a).

(** ** Sample data for the concrete runs *)

(** A world in which both stores answer. *)
Definition quiet_world : World :=
  mkWorld "6f1c2a9e-0b7d-4c3a-9e57-2d1f0a4b8c11" "2024-05-01T10:00:00.000Z"
          "k3j9x0q1z" "2024-05-01T10:00:00.004Z" 1714557600004 None None.

Definition pol003_request : gmap string json :=
  {[ "policyId" := JStr "POL-003";
     "action" := JStr "BLOCK_RDP_PORT";
     "confidence" := JNum (23 # 25) ]}.

(** Requests with a confidence of 1.5 and of -0.2. *)
Definition overconfident_request : gmap string json :=
  {[ "policyId" := JStr "POL-003";
     "action" := JStr "BLOCK_RDP_PORT";
     "confidence" := JNum (3 # 2) ]}.

Definition underconfident_request : gmap string json :=
  {[ "policyId" := JStr "POL-003";
     "action" := JStr "BLOCK_RDP_PORT";
     "confidence" := JNum (-1 # 5) ]}.

(** A request that carries an [id] of its own. *)
Definition request_with_id : gmap string json :=
  {[ "id" := JStr "ACT-1";
     "policyId" := JStr "POL-003";
     "action" := JStr "BLOCK_RDP_PORT" ]}.

(** A later request's world: another identifier, later clocks. *)
Definition later_world : World :=
  mkWorld "0d9e8c7b-6a5f-4e3d-8c2b-1a0f9e8d7c6b" "2024-05-01T10:00:07.000Z"
          "q8w2e4r6t" "2024-05-01T10:00:07.003Z" 1714557607003 None None.

(** A mirrored row, and an index table holding [n] such rows. *)
Definition sample_row : Row :=
  mkRow (Some (JStr "6f1c2a9e-0b7d-4c3a-9e57-2d1f0a4b8c11")) (Some (JStr "POL-003"))
        (Some (JStr "BLOCK_RDP_PORT")) (JStr "") (JNum (23 # 25)) (JStr "EXECUTED")
        "2024-05-01T10:00:00.004Z" 1714557600004.

Definition crowded_state (n : nat) : State :=
  mkState false [] ∅ [] (replicate n sample_row) [].

(** A deployment whose gateway does not connect, and empty stores. *)
Definition unreachable_deployment : Deployment :=
  mkDeployment (Some "/etc/fabric") true true true true true false true.

Definition empty_stores : Stores := mkStores ∅ [] [] [].

(** Empty stores, with the simulation backend or the Fabric backend active. *)
Definition simulation_state : State := mkState false [] ∅ [] [] [].
Definition fabric_state : State := mkState true [] ∅ [] [] [].

(** ** Predicates used in the statements *)

(** The create route's own validity test: both required fields truthy.
    Every present, non-empty string passes it. *)
Definition valid_request (actionData : gmap string json) : Prop :=
  truthy (actionData !! "policyId") = true /\ truthy (actionData !! "action") = true.

(** A required field that is missing or the empty string. *)
Definition missing_or_empty (v : option json) : Prop :=
  v = None \/ v = Some (JStr "").

(** A stored confidence that is a number of the interval [0,1]. *)
Definition in_unit_interval (v : json) : Prop :=
  match v with
  | JNum q => (0 <= q /\ q <= 1)%Q
  | _ => False
  end.

(** The shape of a record produced by the simulation backend. *)
Definition simulated_executed (r : gmap string json) : Prop :=
  r !! "status" = Some (JStr "EXECUTED") /\
  exists suffix, r !! "blockHash" = Some (JStr ("simulated-" ++ suffix)).

(** Everything [connectToBlockchain] needs is there and answers: the
    configuration path is set, the connection profile exists and loads, the
    wallet opens and holds the admin identity, the gateway connects and the
    channel and contract are found. *)
Definition handshake_succeeds (d : Deployment) : Prop :=
  (exists p, FABRIC_CONFIG_PATH d = Some p /\ p <> "") /\
  ccpExists d = true /\ fabricModuleLoads d = true /\ ccpParses d = true /\
  walletOpens d = true /\ adminIdentity d = true /\
  gatewayConnects d = true /\ channelFound d = true.

(** Replacing, request by request, what the Fabric gateway would answer. *)
Definition refault (f : World -> option string) (trace : list (World * request))
    : list (World * request) :=
  map (fun wr => (with_fabricFault (f (fst wr)) (fst wr), snd wr)) trace.

(** ** Proof automation for the handlers *)

Ltac unfold_handlers :=
  unfold handle, route, post_compliance_action, post_compliance_action_body,
    get_api_compliance_actions, get_compliance_actions,
    get_compliance_action_by_id, get_api_blockchain_status,
    contract_submitTransaction, contract_evaluateTransaction,
    ExecuteComplianceAction, QueryAllActions,
    SimulationMode_submitTransaction, SimulationMode_evaluateTransaction,
    pool_insert, pool_select_all, pool_select_by_id, pool_select_page,
    triggerEnforcement, try_catch, bind, ret, throw, gets, modify in *.

Ltac split_world :=
  repeat match goal with
         | |- context [fabricFault ?w] => is_var w; destruct (fabricFault w) eqn:?
         | |- context [dbFault ?w] => is_var w; destruct (dbFault w) eqn:?
         | |- context [negb (truthy ?a) || negb (truthy ?b)] =>
             destruct (negb (truthy a) || negb (truthy b)) eqn:?
         | |- context [if blockchainEnabled ?s then _ else _] =>
             is_var s; destruct (blockchainEnabled s) eqn:?
         | |- context [sql_count ?x] => destruct (sql_count x) eqn:?
         | |- context [match List.filter ?f ?l with _ => _ end] =>
             destruct (List.filter f l) eqn:?
         end.

Ltac crush_handler := unfold_handlers; split_world; simpl.

(** A record on which the test of [GetAllPolicies] does not throw, and the
    records that test keeps. *)
Definition scannable (record : gmap string json) : Prop :=
  is_policy record = true \/ exists i, record !! "id" = Some (JStr i).

Definition policy_like (record : gmap string json) : bool :=
  is_policy record
  || match record !! "id" with
     | Some (JStr i) => String.prefix "pol-" i
     | _ => false
     end.

(** The property names of the chaincode's record literal, and those the
    simulation backend sets itself. *)
Definition chaincode_fields : list string :=
  ["id"; "timestamp"; "policyId"; "threatDescription"; "actionTaken"; "status";
   "confidence"; "targetEndpoints"; "docType"].

Definition simulation_fields : list string :=
  ["id"; "status"; "timestamp"; "blockHash"].

Ltac unfold_chaincode :=
  unfold CreatePolicy, GetPolicy, PolicyExists, QueryAction, QueryDecision,
    QueryAllDecisions, QueryAllActions, GetAllPolicies, executeDecision,
    ExecuteComplianceAction, InitLedger, getState, putState, setEvent,
    try_catch, bind, ret, throw, gets, modify in *.

(** * Properties *)

Lemma sim_record_status (w : World) (actionData : gmap string json) :
  simulated_record w actionData !! "status"
  = Some (JStr "EXECUTED").
Proof. unfold simulated_record. by simplify_map_eq. Qed.

Lemma sim_record_blockHash (w : World) (actionData : gmap string json) :
  simulated_record w actionData !! "blockHash"
  = Some (JStr ("simulated-" ++ random36 w)).
Proof. unfold simulated_record. by simplify_map_eq. Qed.

Lemma sim_submit_ok (w : World) (actionData : gmap string json) (s : State) :
  exists r,
    SimulationMode_submitTransaction w actionData s
      = (Ok r, set_simActions (simActions s ++ [r]) s)
    /\ simulated_executed r.
Proof.
  eexists. split; [reflexivity|].
  split; [apply sim_record_status|].
  exists (random36 w). apply sim_record_blockHash.
Qed.

(** ** The JavaScript helpers on sample inputs *)

Example parseInt_page_size : parseInt "20" = Some 20.
Proof. reflexivity. Qed.

Example parseInt_prefix : parseInt "  -7px" = Some (-7).
Proof. reflexivity. Qed.

Example parseInt_hex : parseInt "0x1F" = Some 31.
Proof. reflexivity. Qed.

Example parseInt_NaN : parseInt "abc" = None /\ parseInt "" = None.
Proof. split; reflexivity. Qed.

Example toUpperCase_status : toUpperCase "executed" = "EXECUTED".
Proof. reflexivity. Qed.

Example empty_string_is_falsy : truthy (Some (JStr "")) = false.
Proof. reflexivity. Qed.

(** The create route reads the remediation code from the request's
    [action] property: a request that names it [actionTaken] is rejected. *)
Example actionTaken_is_not_read :
  handle quiet_world
         (PostComplianceAction
            {[ "policyId" := JStr "POL-003"; "actionTaken" := JStr "BLOCK_RDP_PORT" ]})
         simulation_state
  = (Resp 400 (PError "Missing required fields"), simulation_state).
Proof. reflexivity. Qed.

(** ** What a single request can change *)

Lemma handle_blockchainEnabled (w : World) (r : request) (s : State) :
  blockchainEnabled (snd (handle w r s)) = blockchainEnabled s.
Proof. destruct r; crush_handler; try reflexivity; congruence. Qed.

Lemma handle_simActions (w : World) (r : request) (s : State) :
  Forall simulated_executed (simActions s) ->
  Forall simulated_executed (simActions (snd (handle w r s))).
Proof.
  intros Hs. destruct r; crush_handler; try exact Hs;
    (apply Forall_app; split; [exact Hs|]);
    apply Forall_singleton; (split; [apply sim_record_status|]);
    exists (random36 w); apply sim_record_blockHash.
Qed.

Lemma handle_real_ledger_untouched (w : World) (r : request) (s : State) :
  blockchainEnabled s = false ->
  worldState (snd (handle w r s)) = worldState s /\
  ledgerEvents (snd (handle w r s)) = ledgerEvents s.
Proof.
  intros Hs. destruct r; crush_handler; try (split; reflexivity); congruence.
Qed.

Lemma handle_fault_irrelevant (f : option string) (w : World) (r : request) (s : State) :
  blockchainEnabled s = false ->
  handle (with_fabricFault f w) r s = handle w r s.
Proof.
  intros Hs. destruct r; unfold_handlers; simpl;
    try destruct (negb (truthy (actionData !! "policyId")) || _);
    rewrite ?Hs; reflexivity.
Qed.

Lemma run_cons (w : World) (r : request) (rest : list (World * request)) (s : State) :
  run ((w, r) :: rest) s
  = (fst (handle w r s) :: fst (run rest (snd (handle w r s))),
     snd (run rest (snd (handle w r s)))).
Proof.
  simpl. destruct (handle w r s) as [resp s']. simpl.
  destruct (run rest s') as [resps s'']. reflexivity.
Qed.

Lemma run_blockchainEnabled (trace : list (World * request)) (s : State) :
  blockchainEnabled (snd (run trace s)) = blockchainEnabled s.
Proof.
  revert s. induction trace as [|[w r] rest IH]; intros s; [reflexivity|].
  rewrite run_cons. simpl. rewrite IH. apply handle_blockchainEnabled.
Qed.

Lemma run_simActions (trace : list (World * request)) (s : State) :
  Forall simulated_executed (simActions s) ->
  Forall simulated_executed (simActions (snd (run trace s))).
Proof.
  revert s. induction trace as [|[w r] rest IH]; intros s Hs; [exact Hs|].
  rewrite run_cons. simpl. apply IH. by apply handle_simActions.
Qed.

Lemma run_real_ledger_untouched (trace : list (World * request)) (s : State) :
  blockchainEnabled s = false ->
  worldState (snd (run trace s)) = worldState s /\
  ledgerEvents (snd (run trace s)) = ledgerEvents s.
Proof.
  revert s. induction trace as [|[w r] rest IH]; intros s Hs; [by split|].
  rewrite run_cons. simpl.
  destruct (handle_real_ledger_untouched w r s Hs) as [Hw He].
  destruct (IH (snd (handle w r s))) as [Hw' He'].
  - by rewrite handle_blockchainEnabled.
  - split; congruence.
Qed.

Lemma run_fault_irrelevant (f : World -> option string)
    (trace : list (World * request)) (s : State) :
  blockchainEnabled s = false ->
  run (refault f trace) s = run trace s.
Proof.
  revert s. induction trace as [|[w r] rest IH]; intros s Hs; [reflexivity|].
  unfold refault in *. cbn [map fst snd]. rewrite !run_cons.
  rewrite handle_fault_irrelevant by exact Hs.
  rewrite IH; [reflexivity|]. by rewrite handle_blockchainEnabled.
Qed.

(** ** Start-up *)

Lemma startServer_flag (d : Deployment) (e : Stores) :
  blockchainEnabled (startServer d e) = true <-> handshake_succeeds d.
Proof.
  unfold startServer, connectToBlockchain, attempt, handshake_succeeds.
  unfold_handlers.
  destruct (FABRIC_CONFIG_PATH d) as [p|] eqn:Hp.
  - destruct (String.eqb_spec p "") as [->|Hne];
      destruct (ccpExists d), (fabricModuleLoads d), (ccpParses d),
        (walletOpens d), (adminIdentity d), (gatewayConnects d), (channelFound d);
      simpl; split; intros H; try discriminate;
      try (destruct H as (H0 & H1 & H2 & H3 & H4 & H5 & H6 & H7); discriminate);
      try (destruct H as ((q & Hq & Hq') & _); congruence).
    all: repeat split; eauto.
  - simpl. split; [discriminate|]. intros ((q & Hq & _) & _). discriminate.
Qed.

Lemma startServer_flag_false (d : Deployment) (e : Stores) :
  ~ handshake_succeeds d -> blockchainEnabled (startServer d e) = false.
Proof.
  intros H. destruct (blockchainEnabled (startServer d e)) eqn:E; [|reflexivity].
  apply startServer_flag in E. contradiction.
Qed.

Lemma startServer_stores (d : Deployment) (e : Stores) :
  simActions (startServer d e) = [] /\
  worldState (startServer d e) = st_worldState e /\
  ledgerEvents (startServer d e) = st_ledgerEvents e.
Proof.
  unfold startServer, connectToBlockchain, attempt. unfold_handlers.
  destruct (FABRIC_CONFIG_PATH d) as [p|]; [destruct (String.eqb p "")|];
    destruct (ccpExists d), (fabricModuleLoads d), (ccpParses d),
      (walletOpens d), (adminIdentity d), (gatewayConnects d), (channelFound d);
    repeat split.
Qed.

(** ** The claims *)

(** C10.  Every record written through the simulation backend has status
    EXECUTED and a [blockHash] that begins with [simulated-], whatever the
    request carried in its own [status] field: [submitTransaction] always
    returns and appends such a record, and in every state reached from
    start-up all records held by the simulation backend have this shape, so
    none of them is PENDING or FAILED. *)
Theorem C10_simulation_records_executed :
  (forall (w : World) (actionData : gmap string json) (s : State),
      exists r,
        SimulationMode_submitTransaction w actionData s
          = (Ok r, set_simActions (simActions s ++ [r]) s)
        /\ simulated_executed r
        /\ r !! "status" <> Some (JStr "PENDING")
        /\ r !! "status" <> Some (JStr "FAILED"))
  /\
  (forall (d : Deployment) (e : Stores) (trace : list (World * request)),
      Forall simulated_executed (simActions (snd (run trace (startServer d e))))).
Proof.
  split.
  - intros w actionData s.
    destruct (sim_submit_ok w actionData s) as (r & Hr & Hok).
    exists r. repeat split; try apply Hok; try exact Hr;
      destruct Hok as [-> _]; discriminate.
  - intros d e trace. apply run_simActions.
    destruct (startServer_stores d e) as [-> _]. constructor.
Qed.

(** C9.  The backend is chosen once, by [connectToBlockchain] at start-up:
    the flag is set exactly when the whole handshake succeeds, and no request
    changes it afterwards.  When the handshake fails, every state reached
    later has the flag off, no request writes to the Fabric channel, and the
    responses and states do not depend on what the Fabric gateway would have
    answered: all writes and reads go to the local backend. *)
Theorem C9_backend_chosen_once (d : Deployment) (e : Stores) :
  (blockchainEnabled (startServer d e) = true <-> handshake_succeeds d)
  /\
  (forall trace : list (World * request),
      blockchainEnabled (snd (run trace (startServer d e)))
      = blockchainEnabled (startServer d e))
  /\
  (~ handshake_succeeds d ->
   forall trace : list (World * request),
     blockchainEnabled (snd (run trace (startServer d e))) = false
     /\ worldState (snd (run trace (startServer d e))) = st_worldState e
     /\ ledgerEvents (snd (run trace (startServer d e))) = st_ledgerEvents e
     /\ forall f : World -> option string,
          run (refault f trace) (startServer d e) = run trace (startServer d e)).
Proof.
  split; [apply startServer_flag|].
  split; [intros trace; apply run_blockchainEnabled|].
  intros Hfail trace.
  pose proof (startServer_flag_false d e Hfail) as Hoff.
  destruct (startServer_stores d e) as (_ & Hw & He).
  destruct (run_real_ledger_untouched trace _ Hoff) as [Hw' He'].
  repeat split.
  - by rewrite run_blockchainEnabled.
  - congruence.
  - congruence.
  - intros f. by apply run_fault_irrelevant.
Qed.

Lemma C9_backend_chosen_once_witness :
  blockchainEnabled
    (snd (run [(quiet_world, PostComplianceAction pol003_request);
               (later_world, GetApiComplianceActions)]
              (startServer unreachable_deployment empty_stores))) = false
  /\
  worldState
    (snd (run [(quiet_world, PostComplianceAction pol003_request);
               (later_world, GetApiComplianceActions)]
              (startServer unreachable_deployment empty_stores))) = ∅.
Proof.
  destruct (C9_backend_chosen_once unreachable_deployment empty_stores)
    as (_ & _ & H).
  destruct (H (fun Hok : handshake_succeeds unreachable_deployment =>
                 match Hok with
                 | conj _ (conj _ (conj _ (conj _ (conj _ (conj _ (conj Hg _)))))) =>
                     Bool.diff_false_true Hg
                 end)
              [(quiet_world, PostComplianceAction pol003_request);
               (later_world, GetApiComplianceActions)])
    as (H1 & H2 & _).
  split; [exact H1 | exact H2].
Defined.

(** C7 as stated fails: the handler never reads a request property named
    [actionTaken].  A request with [policyId] and [action] in which
    [actionTaken] is missing is not rejected: it is answered with status 200
    and its record is written to the ledger and to the index. *)
Lemma C7_missing_actionTaken_accepted :
  missing_or_empty (pol003_request !! "actionTaken") /\
  exists r s1,
    handle quiet_world (PostComplianceAction pol003_request) simulation_state
    = (Resp 200 (PRecord r), s1)
    /\ simActions s1 = [r]
    /\ compliance_actions s1 = [mirror_row quiet_world r].
Proof.
  split; [left; reflexivity|].
  do 2 eexists. split; [reflexivity|]. split; reflexivity.
Qed.

(** C7, amended.  A create request whose [policyId] or [action] (the request
    property the handler reads, which the chaincode records as
    [actionTaken]) is missing or empty is answered at once with status 400
    and [Missing required fields]; the state is unchanged, so no ledger or
    index write was made. *)
Theorem C7_missing_fields_rejected (w : World)
    (actionData : gmap string json) (s : State) :
  missing_or_empty (actionData !! "policyId") \/
  missing_or_empty (actionData !! "action") ->
  handle w (PostComplianceAction actionData) s
  = (Resp 400 (PError "Missing required fields"), s).
Proof.
  intros H. unfold_handlers.
  assert (negb (truthy (actionData !! "policyId"))
          || negb (truthy (actionData !! "action")) = true) as ->.
  { destruct H as [[-> | ->] | [-> | ->]]; simpl;
      rewrite ?orb_true_r; reflexivity. }
  reflexivity.
Qed.

Lemma C7_missing_fields_rejected_witness :
  handle quiet_world
         (PostComplianceAction {[ "policyId" := JStr "POL-003"; "action" := JStr "" ]})
         fabric_state
  = (Resp 400 (PError "Missing required fields"), fabric_state)
  /\
  handle quiet_world
         (PostComplianceAction {[ "action" := JStr "BLOCK_RDP_PORT" ]})
         simulation_state
  = (Resp 400 (PError "Missing required fields"), simulation_state).
Proof.
  split.
  - apply (C7_missing_fields_rejected quiet_world
             {[ "policyId" := JStr "POL-003"; "action" := JStr "" ]} fabric_state).
    right. right. reflexivity.
  - apply (C7_missing_fields_rejected quiet_world
             {[ "action" := JStr "BLOCK_RDP_PORT" ]} simulation_state).
    left. left. reflexivity.
Defined.

(** C1 as stated fails: with the Fabric backend active and unreachable, a
    valid create request is answered with status 500 and the error's message.
    No record is returned (so none with status FAILED), and the state is left
    as it was: nothing reaches the relational index either. *)
Lemma C1_ledger_fault_not_absorbed :
  valid_request pol003_request /\
  blockchainEnabled fabric_state = true /\
  handle (with_fabricFault (Some "14 UNAVAILABLE: failed to connect") quiet_world)
         (PostComplianceAction pol003_request) fabric_state
  = (Resp 500 (PError "14 UNAVAILABLE: failed to connect"), fabric_state)
  /\
  ~ (exists c r,
        fst (handle (with_fabricFault (Some "14 UNAVAILABLE: failed to connect")
                                      quiet_world)
                    (PostComplianceAction pol003_request) fabric_state)
        = Resp c (PRecord r)).
Proof.
  repeat split.
  intros (c & r & H). vm_compute in H. discriminate H.
Qed.

(** C1, amended.  When the Fabric backend is active and its
    [submitTransaction] throws, a valid create request is answered with
    status 500 carrying the error's message; no record is returned and the
    state, relational index included, is unchanged. *)
Theorem C1_ledger_fault_reported (w : World)
    (actionData : gmap string json) (s : State) (m : string) :
  valid_request actionData ->
  blockchainEnabled s = true ->
  fabricFault w = Some m ->
  handle w (PostComplianceAction actionData) s = (Resp 500 (PError m), s).
Proof.
  intros [Hp Ha] Hs Hf. unfold_handlers.
  rewrite Hp, Ha. simpl. rewrite Hs, Hf. reflexivity.
Qed.

Lemma C1_ledger_fault_reported_witness :
  handle (with_fabricFault (Some "timeout") quiet_world)
         (PostComplianceAction pol003_request) fabric_state
  = (Resp 500 (PError "timeout"), fabric_state).
Proof.
  apply (C1_ledger_fault_reported
           (with_fabricFault (Some "timeout") quiet_world)
           pol003_request fabric_state "timeout");
    [split; reflexivity | reflexivity | reflexivity].
Defined.

(** C6.  When the ledger write succeeds and the mirror [INSERT] fails, the
    create request is answered with status 200 and the record the ledger
    write returned, and the state left behind is exactly the state the ledger
    write produced: the ledger holds that record (under its id in the Fabric
    world state, or as the last entry of the simulation backend) and the
    index table is as it was. *)
Theorem C6_mirror_failure_swallowed (w : World)
    (actionData : gmap string json) (s : State) (m : string) :
  valid_request actionData ->
  blockchainEnabled s = false \/ fabricFault w = None ->
  dbFault w = Some m ->
  exists r s1,
    (if blockchainEnabled s
     then contract_submitTransaction w actionData
     else SimulationMode_submitTransaction w actionData) s = (Ok r, s1)
    /\ handle w (PostComplianceAction actionData) s = (Resp 200 (PRecord r), s1)
    /\ (if blockchainEnabled s
        then worldState s1 !! uuid w = Some r
        else last (simActions s1) = Some r)
    /\ compliance_actions s1 = compliance_actions s.
Proof.
  intros [Hp Ha] Hl Hd.
  destruct (blockchainEnabled s) eqn:Hs.
  - destruct Hl as [Hl | Hl]; [discriminate|].
    eexists. eexists. unfold_handlers. rewrite Hp, Ha. simpl.
    rewrite Hs, Hl, Hd. simpl.
    repeat split. apply lookup_insert_eq.
  - eexists. eexists. unfold_handlers. rewrite Hp, Ha. simpl.
    rewrite Hs, Hd. simpl.
    repeat split. apply last_snoc.
Qed.

Lemma C6_mirror_failure_swallowed_witness :
  exists r s1,
    SimulationMode_submitTransaction
      (with_dbFault (Some "connect ECONNREFUSED 127.0.0.1:5432") quiet_world)
      pol003_request simulation_state = (Ok r, s1)
    /\ handle
         (with_dbFault (Some "connect ECONNREFUSED 127.0.0.1:5432") quiet_world)
         (PostComplianceAction pol003_request) simulation_state
       = (Resp 200 (PRecord r), s1)
    /\ last (simActions s1) = Some r
    /\ compliance_actions s1 = compliance_actions simulation_state.
Proof.
  apply (C6_mirror_failure_swallowed
           (with_dbFault (Some "connect ECONNREFUSED 127.0.0.1:5432") quiet_world)
           pol003_request simulation_state
           "connect ECONNREFUSED 127.0.0.1:5432");
    [split; reflexivity | left; reflexivity | reflexivity].
Defined.

(** ** What the ledger record keeps of the request *)

Lemma lookup_set_opt_ne (k k' : string) (v : option json) (o : gmap string json) :
  k <> k' -> set_opt k v o !! k' = o !! k'.
Proof. intros H. destruct v; simpl; [by rewrite lookup_insert_ne|done]. Qed.

Lemma lookup_set_opt_eq (k : string) (v : option json) (o : gmap string json) :
  o !! k = None -> set_opt k v o !! k = v.
Proof. intros H. destruct v; simpl; [by rewrite lookup_insert_eq|done]. Qed.

Lemma sim_record_confidence (w : World) (actionData : gmap string json) :
  simulated_record w actionData !! "confidence"
  = actionData !! "confidence".
Proof.
  unfold simulated_record. rewrite !lookup_insert_ne by done. unfold spread.
  rewrite lookup_union, lookup_singleton_ne by done.
  by destruct (actionData !! "confidence").
Qed.

Lemma sim_record_id (w : World) (actionData : gmap string json) :
  simulated_record w actionData !! "id"
  = Some (default (JStr (uuid w)) (actionData !! "id")).
Proof.
  unfold simulated_record. rewrite !lookup_insert_ne by done. unfold spread.
  rewrite lookup_union, lookup_singleton_eq.
  by destruct (actionData !! "id").
Qed.

Lemma fabric_record_confidence (w : World) (actionData : gmap string json) :
  chaincode_record w actionData !! "confidence" = actionData !! "confidence".
Proof.
  unfold chaincode_record.
  rewrite lookup_insert_ne by done.
  rewrite lookup_set_opt_ne by done.
  apply lookup_set_opt_eq.
  rewrite lookup_insert_ne by done.
  rewrite !lookup_set_opt_ne by done.
  by simplify_map_eq.
Qed.

Lemma fabric_record_id (w : World) (actionData : gmap string json) :
  chaincode_record w actionData !! "id" = Some (JStr (uuid w)).
Proof.
  unfold chaincode_record.
  rewrite lookup_insert_ne by done.
  rewrite !lookup_set_opt_ne by done.
  rewrite lookup_insert_ne by done.
  rewrite !lookup_set_opt_ne by done.
  by simplify_map_eq.
Qed.

(** The record a successful ledger write returns, by backend. *)
Lemma post_success (w : World) (actionData : gmap string json) (s : State) :
  valid_request actionData ->
  blockchainEnabled s = false \/ fabricFault w = None ->
  let r := if blockchainEnabled s
           then chaincode_record w actionData
           else simulated_record w actionData in
  let s1 := if blockchainEnabled s
            then set_ledgerEvents
                   (ledgerEvents s ++ [("ComplianceActionExecuted", r)])
                   (set_worldState (<[uuid w := r]> (worldState s)) s)
            else set_simActions (simActions s ++ [r]) s in
  handle w (PostComplianceAction actionData) s
  = (Resp 200 (PRecord r),
     match dbFault w with
     | None => set_compliance_actions (compliance_actions s1 ++ [mirror_row w r]) s1
     | Some _ => s1
     end).
Proof.
  intros [Hp Ha] Hl. unfold_handlers. rewrite Hp, Ha. simpl.
  destruct (blockchainEnabled s) eqn:Hs.
  - destruct Hl as [Hl | Hl]; [discriminate|]. rewrite Hl. simpl.
    destruct (dbFault w); reflexivity.
  - simpl. destruct (dbFault w); reflexivity.
Qed.

(** C4 as stated fails: nothing rejects or clamps a confidence.  A request
    with confidence 1.5 is answered with status 200, and 1.5 is what the
    simulation backend and the index row hold; likewise for -0.2. *)
Lemma C4_out_of_range_confidence_stored :
  (exists r row,
      handle quiet_world (PostComplianceAction overconfident_request) simulation_state
      = (Resp 200 (PRecord r),
         mkState false [r] ∅ [] [row] [])
      /\ r !! "confidence" = Some (JNum (3 # 2))
      /\ confidence row = JNum (3 # 2)
      /\ ~ in_unit_interval (JNum (3 # 2)))
  /\
  (exists r row,
      handle quiet_world (PostComplianceAction underconfident_request) simulation_state
      = (Resp 200 (PRecord r),
         mkState false [r] ∅ [] [row] [])
      /\ r !! "confidence" = Some (JNum (-1 # 5))
      /\ confidence row = JNum (-1 # 5)
      /\ ~ in_unit_interval (JNum (-1 # 5))).
Proof.
  split.
  - exists (simulated_record quiet_world overconfident_request),
           (mirror_row quiet_world (simulated_record quiet_world overconfident_request)).
    repeat split. intros [_ H]. vm_compute in H. apply H. reflexivity.
  - exists (simulated_record quiet_world underconfident_request),
           (mirror_row quiet_world (simulated_record quiet_world underconfident_request)).
    repeat split. intros [H _]. vm_compute in H. apply H. reflexivity.
Qed.

(** C4, amended.  A create request whose ledger write succeeds stores the
    confidence as the request supplied it, with no range check: the ledger
    record has exactly the request's [confidence] property, and when the
    mirror write succeeds the new index row holds that value if it is truthy
    and 0 otherwise; in particular an absent confidence is mirrored as 0. *)
Theorem C4_confidence_stored_as_supplied (w : World)
    (actionData : gmap string json) (s : State) :
  valid_request actionData ->
  blockchainEnabled s = false \/ fabricFault w = None ->
  dbFault w = None ->
  exists r s1,
    handle w (PostComplianceAction actionData) s = (Resp 200 (PRecord r), s1)
    /\ r !! "confidence" = actionData !! "confidence"
    /\ (if blockchainEnabled s
        then worldState s1 !! uuid w = Some r
        else last (simActions s1) = Some r)
    /\ compliance_actions s1 = (compliance_actions s ++ [mirror_row w r])%list
    /\ confidence (mirror_row w r) = or_else (actionData !! "confidence") (JNum 0)
    /\ (actionData !! "confidence" = None -> confidence (mirror_row w r) = JNum 0).
Proof.
  intros Hv Hl Hd.
  pose proof (post_success w actionData s Hv Hl) as H. cbv zeta in H.
  rewrite Hd in H.
  eexists. eexists. split; [exact H|].
  destruct (blockchainEnabled s); simpl.
  - rewrite fabric_record_confidence.
    repeat split; [apply lookup_insert_eq|]. by intros ->.
  - rewrite sim_record_confidence.
    repeat split; [apply last_snoc|]. by intros ->.
Qed.

Lemma C4_confidence_stored_as_supplied_witness :
  exists r s1,
    handle quiet_world (PostComplianceAction overconfident_request) fabric_state
    = (Resp 200 (PRecord r), s1)
    /\ r !! "confidence" = overconfident_request !! "confidence"
    /\ worldState s1 !! uuid quiet_world = Some r
    /\ compliance_actions s1 = ([] ++ [mirror_row quiet_world r])%list
    /\ confidence (mirror_row quiet_world r)
       = or_else (overconfident_request !! "confidence") (JNum 0)
    /\ (overconfident_request !! "confidence" = None ->
        confidence (mirror_row quiet_world r) = JNum 0).
Proof.
  apply (C4_confidence_stored_as_supplied quiet_world overconfident_request fabric_state);
    [split; reflexivity | right; reflexivity | reflexivity].
Defined.

(** C5: the simulation backend lets an [id] carried by the request replace
    the identifier it generated.  Two create requests served with different
    generated identifiers, both carrying [id = ACT-1], are both answered with
    a record whose id is ACT-1, and the backend then holds two records with
    that id. *)
Theorem C5_request_id_replaces_generated_id :
  uuid quiet_world <> uuid later_world /\
  exists r1 r2 s1 s2,
    handle quiet_world (PostComplianceAction request_with_id) simulation_state
    = (Resp 200 (PRecord r1), s1)
    /\ handle later_world (PostComplianceAction request_with_id) s1
       = (Resp 200 (PRecord r2), s2)
    /\ r1 !! "id" = Some (JStr "ACT-1")
    /\ r2 !! "id" = Some (JStr "ACT-1")
    /\ simActions s2 = [r1; r2].
Proof.
  split; [discriminate|].
  do 4 eexists. split; [reflexivity|]. split; [reflexivity|].
  repeat split; rewrite sim_record_id; reflexivity.
Qed.

(** Without an [id] in the request, different generated identifiers give
    different record ids on both backends. *)
Lemma generated_ids_differ (w1 w2 : World) (a1 a2 : gmap string json) :
  uuid w1 <> uuid w2 ->
  chaincode_record w1 a1 !! "id" <> chaincode_record w2 a2 !! "id" /\
  (a1 !! "id" = None -> a2 !! "id" = None ->
   simulated_record w1 a1 !! "id" <> simulated_record w2 a2 !! "id").
Proof.
  intros Hne. split.
  - rewrite !fabric_record_id. congruence.
  - intros H1 H2. rewrite !sim_record_id, H1, H2. simpl. congruence.
Qed.

(** On the Fabric path the chaincode's record always carries the generated
    identifier, whatever the request holds; the simulation record carries it
    only when the request has no [id] of its own. *)
Lemma generated_id_by_backend (w : World) (actionData : gmap string json) :
  chaincode_record w actionData !! "id" = Some (JStr (uuid w)) /\
  (actionData !! "id" = None ->
   simulated_record w actionData !! "id" = Some (JStr (uuid w))) /\
  (forall v, actionData !! "id" = Some v ->
             simulated_record w actionData !! "id" = Some v).
Proof.
  split; [apply fabric_record_id|].
  split; [intros H | intros v H]; rewrite sim_record_id, H; reflexivity.
Qed.

(** ** Selecting from the index by id *)


Lemma left_join_fst (l : list Row) (pols : list Policy) (r : Row * option Policy) :
  In r (left_join l pols) -> In (fst r) l.
Proof.
  unfold left_join. rewrite in_flat_map. intros (ca & Hca & Hr).
  destruct (List.filter _ pols) as [|p ps].
  - destruct Hr as [<- | []]. exact Hca.
  - apply in_map_iff in Hr as (q & <- & _). exact Hca.
Qed.


Lemma select_by_id_absent (l : list Row) (pols : list Policy) (i : string) :
  (forall x, In x l -> sql_eq (row_id x) i = false) ->
  List.filter (fun r => sql_eq (row_id (fst r)) i) (left_join l pols) = [].
Proof.
  intros H.
  destruct (List.filter _ (left_join l pols)) as [|r rest] eqn:E; [reflexivity|].
  assert (In r (List.filter (fun r => sql_eq (row_id (fst r)) i) (left_join l pols)))
    as Hr by (rewrite E; left; reflexivity).
  apply filter_In in Hr as [Hr Hi].
  apply left_join_fst in Hr. rewrite (H _ Hr) in Hi. discriminate.
Qed.





(** ** The fallback chain of the list route *)

(** C2 as stated fails: the list route has no built-in default set.  With
    the Fabric backend active and both the gateway and the relational index
    unreachable, the request is answered with status 500. *)
Lemma C2_no_default_set :
  blockchainEnabled fabric_state = true /\
  handle (with_dbFault (Some "connect ECONNREFUSED 127.0.0.1:5432")
            (with_fabricFault (Some "14 UNAVAILABLE: failed to connect") quiet_world))
         GetApiComplianceActions fabric_state
  = (Resp 500 (PError "Failed to fetch actions from all sources"), fabric_state)
  /\
  ~ (exists l,
        body (fst (handle
                     (with_dbFault (Some "connect ECONNREFUSED 127.0.0.1:5432")
                        (with_fabricFault (Some "14 UNAVAILABLE: failed to connect")
                           quiet_world))
                     GetApiComplianceActions fabric_state))
        = PActions l).
Proof.
  split; [reflexivity|]. split; [reflexivity|].
  intros (l & H). vm_compute in H. discriminate H.
Qed.

(** C2, amended.  The list route of app.js asks the active ledger backend
    first (the simulation backend, which always answers, or the Fabric
    contract's scan); when the Fabric call fails it answers from the
    relational index, newest [timestamp] first; when that fails too it
    answers with status 500, there being no default set.  Lookup by id reads
    the relational index only: 404 when no row has the id, 500 with the
    error's message when the index is unreachable, and the same answer
    whatever the ledgers hold. *)
Theorem C2_fallback_chain (w : World) (s : State) :
  (blockchainEnabled s = false ->
   handle w GetApiComplianceActions s = (Resp 200 (PActions (simActions s)), s))
  /\
  (blockchainEnabled s = true -> fabricFault w = None ->
   handle w GetApiComplianceActions s
   = (Resp 200 (PActions (List.filter is_complianceAction
                            (snd <$> map_to_list (worldState s)))), s))
  /\
  (blockchainEnabled s = true -> fabricFault w <> None -> dbFault w = None ->
   handle w GetApiComplianceActions s
   = (Resp 200 (PRows (order_by (fun y x => String.ltb (timestamp x) (timestamp y))
                                (compliance_actions s))), s))
  /\
  (blockchainEnabled s = true -> fabricFault w <> None -> dbFault w <> None ->
   handle w GetApiComplianceActions s
   = (Resp 500 (PError "Failed to fetch actions from all sources"), s))
  /\
  (forall id : string,
      (dbFault w = None ->
       (forall x, In x (compliance_actions s) -> sql_eq (row_id x) id = false) ->
       handle w (GetComplianceActionById id) s
       = (Resp 404 (PError "Compliance action not found"), s))
      /\
      (forall m, dbFault w = Some m ->
       handle w (GetComplianceActionById id) s = (Resp 500 (PError m), s))
      /\
      (forall s' : State,
          compliance_actions s' = compliance_actions s ->
          policies s' = policies s ->
          fst (handle w (GetComplianceActionById id) s')
          = fst (handle w (GetComplianceActionById id) s))).
Proof.
  split; [|split; [|split; [|split]]].
  - intros Hs. unfold_handlers. by rewrite Hs.
  - intros Hs Hf. unfold_handlers. by rewrite Hs, Hf.
  - intros Hs Hf Hd. unfold_handlers. rewrite Hs, Hd.
    destruct (fabricFault w); [reflexivity | contradiction].
  - intros Hs Hf Hd. unfold_handlers. rewrite Hs.
    destruct (fabricFault w); [|contradiction].
    destruct (dbFault w); [reflexivity | contradiction].
  - intros id. split; [|split].
    + intros Hd Habs. unfold_handlers. rewrite Hd. simpl.
      by rewrite select_by_id_absent.
    + intros m Hd. unfold_handlers. by rewrite Hd.
    + intros s' Hc Hp. unfold_handlers.
      destruct (dbFault w); [reflexivity|]. simpl. rewrite Hc, Hp.
      by destruct (List.filter _ _).
Qed.

Lemma C2_fallback_chain_witness :
  handle (with_dbFault (Some "pool closed") (with_fabricFault (Some "timeout") quiet_world))
         GetApiComplianceActions fabric_state
  = (Resp 500 (PError "Failed to fetch actions from all sources"), fabric_state)
  /\
  handle (with_fabricFault (Some "timeout") quiet_world)
         GetApiComplianceActions fabric_state
  = (Resp 200 (PRows []), fabric_state)
  /\
  handle quiet_world (GetComplianceActionById "ACT-1") fabric_state
  = (Resp 404 (PError "Compliance action not found"), fabric_state).
Proof.
  split; [|split].
  - apply (C2_fallback_chain
             (with_dbFault (Some "pool closed")
                (with_fabricFault (Some "timeout") quiet_world))
             fabric_state); [reflexivity | discriminate | discriminate].
  - apply (C2_fallback_chain (with_fabricFault (Some "timeout") quiet_world)
             fabric_state); [reflexivity | discriminate | reflexivity].
  - apply (C2_fallback_chain quiet_world fabric_state); [reflexivity | intros x []].
Defined.

(** ** Filtered, paginated reads of the index *)

Section OrderBy.

Context {A : Type} (before : A -> A -> bool).

Lemma insert_by_In (x y : A) (l : list A) :
  In y (insert_by before x l) <-> y = x \/ In y l.
Proof.
  induction l as [|z l IH]; simpl.
  - split; [intros [<- | []]; by left | intros [-> | []]; by left].
  - destruct (before z x); simpl; [rewrite IH|]; intuition congruence.
Qed.

Lemma insert_by_length (x : A) (l : list A) :
  length (insert_by before x l) = S (length l).
Proof.
  induction l as [|z l IH]; simpl; [reflexivity|].
  destruct (before z x); simpl; [by rewrite IH | reflexivity].
Qed.

Lemma order_by_In (y : A) (l : list A) :
  In y (order_by before l) <-> In y l.
Proof.
  unfold order_by. induction l as [|x l IH]; simpl; [reflexivity|].
  rewrite insert_by_In, IH. intuition congruence.
Qed.

Lemma order_by_length (l : list A) :
  length (order_by before l) = length l.
Proof.
  unfold order_by. induction l as [|x l IH]; simpl; [reflexivity|].
  by rewrite insert_by_length, IH.
Qed.

End OrderBy.

Lemma In_take_drop {A} (x : A) (n m : nat) (l : list A) :
  In x (take n (drop m l)) -> In x l.
Proof.
  rewrite <- !list_elem_of_In. intros H.
  by apply (subseteq_drop m l), (subseteq_take n (drop m l)).
Qed.

Lemma filter_param_given (v : string) :
  v <> "" -> filter_param (Some v) = Some (toUpperCase v).
Proof.
  intros H. unfold filter_param.
  destruct (String.eqb_spec v ""); [contradiction | reflexivity].
Qed.

Lemma where_clause_status (sev : option string) (v : string) (r : Row * option Policy) :
  where_clause sev (Some v) r = true -> status (fst r) = JStr v.
Proof.
  unfold where_clause. intros H. apply andb_true_iff in H as [_ H].
  simpl in H. destruct (status (fst r)); try discriminate.
  apply String.eqb_eq in H. by subst.
Qed.

Lemma where_clause_severity (st : option string) (v : string) (r : Row * option Policy) :
  where_clause (Some v) st r = true -> exists p, snd r = Some p /\ severity p = v.
Proof.
  unfold where_clause. intros H. apply andb_true_iff in H as [H _].
  destruct (snd r) as [p|]; [|discriminate].
  apply String.eqb_eq in H. eauto.
Qed.

(** The answer of [GET /compliance/actions] when the index answers and the
    pagination parameters are acceptable. *)
Lemma index_list_answer (w : World) (q : ListQuery) (s : State) (limit offset : nat) :
  dbFault w = None ->
  sql_count (int_param (q_limit q) 100) = Some limit ->
  sql_count (int_param (q_offset q) 0) = Some offset ->
  handle w (GetComplianceActions q) s
  = (Resp 200
       (PJoined
          (take limit
             (drop offset
                (order_by newer_first
                   (List.filter
                      (where_clause (filter_param (q_severity q))
                                    (filter_param (q_status q)))
                      (left_join (compliance_actions s) (policies s))))))),
     s).
Proof.
  intros Hd Hl Ho. unfold_handlers. rewrite Hd, Hl, Ho. reflexivity.
Qed.

Lemma sql_count_nonneg (k : Z) :
  0 <= k < 2 ^ 63 -> sql_count (Some k) = Some (Z.to_nat k).
Proof.
  intros H. unfold sql_count.
  destruct (Z.leb_spec 0 k); [|lia].
  destruct (Z.ltb_spec k (2 ^ 63)); [reflexivity | lia].
Qed.

Lemma left_join_no_policies (l : list Row) :
  left_join l [] = map (fun ca => (ca, None)) l.
Proof.
  unfold left_join. induction l as [|x l IH]; simpl in *; [reflexivity|].
  by rewrite IH.
Qed.

Lemma filter_unfiltered (l : list (Row * option Policy)) :
  List.filter (where_clause None None) l = l.
Proof.
  induction l as [|x l IH]; simpl; [reflexivity|]. by rewrite IH.
Qed.

Lemma parseInt_max_safe : parseInt "9007199254740991" = Some MAX_SAFE_INTEGER.
Proof. vm_compute. reflexivity. Qed.

(** A request for up to [MAX_SAFE_INTEGER] rows against a table of [n] rows
    is answered with all [n] of them. *)
Lemma whole_table_served (n : nat) :
  Z.of_nat n <= MAX_SAFE_INTEGER ->
  exists rows,
    handle quiet_world
           (GetComplianceActions (mkListQuery None None (Some "9007199254740991") None))
           (crowded_state n)
    = (Resp 200 (PJoined rows), crowded_state n)
    /\ length rows = n.
Proof.
  intros Hn. eexists. split.
  - apply index_list_answer with (offset := 0%nat); [reflexivity| |reflexivity].
    cbn [q_limit int_param]. rewrite parseInt_max_safe.
    apply sql_count_nonneg. unfold MAX_SAFE_INTEGER. lia.
  - cbn [q_severity q_status filter_param crowded_state compliance_actions policies].
    rewrite left_join_no_policies, filter_unfiltered.
    rewrite length_take, length_drop, order_by_length, length_map, length_replicate.
    unfold MAX_SAFE_INTEGER in *. lia.
Qed.

Example parseInt_beyond_safe_integers :
  parseInt "9007199254740993" = Some 9007199254740992
  /\ parseInt "9223372036854775807" = Some 9223372036854775808.
Proof. split; vm_compute; reflexivity. Qed.

(** A limit of [2^63] is no [bigint]: the query fails and the route answers
    with status 500. *)
Example limit_beyond_bigint_fails :
  handle quiet_world
         (GetComplianceActions
            (mkListQuery None None (Some "9223372036854775808") None))
         (crowded_state 3)
  = (Resp 500 (PError "invalid LIMIT or OFFSET"), crowded_state 3).
Proof. vm_compute. reflexivity. Qed.

Example newest_first_page :
  map (fun r => created_at (fst r))
      (order_by newer_first
         [(mkRow None None None (JStr "") (JNum 0) (JStr "EXECUTED") "a" 5, None);
          (mkRow None None None (JStr "") (JNum 0) (JStr "EXECUTED") "b" 9, None);
          (mkRow None None None (JStr "") (JNum 0) (JStr "EXECUTED") "c" 7, None)])
  = [9; 7; 5].
Proof. reflexivity. Qed.

(** C8 as stated fails in its last part: the requested limit is used as it
    is.  A request for 101 rows against a table of 101 rows is answered with
    all 101, one more than the route's default page size of 100; and no
    maximum whatever bounds the answers, since a table of any size is served
    whole to a request that asks for enough rows. *)
Lemma C8_limit_not_capped :
  (exists rows,
      handle quiet_world
             (GetComplianceActions (mkListQuery None None (Some "101") None))
             (crowded_state 101)
      = (Resp 200 (PJoined rows), crowded_state 101)
      /\ length rows = 101%nat)
  /\
  ~ (exists cap : nat,
        Z.of_nat cap < MAX_SAFE_INTEGER /\
        forall (w : World) (q : ListQuery) (s s' : State)
               (rows : list (Row * option Policy)),
          handle w (GetComplianceActions q) s = (Resp 200 (PJoined rows), s') ->
          (length rows <= cap)%nat).
Proof.
  split.
  - eexists. split; [reflexivity|]. vm_compute. reflexivity.
  - intros (cap & Hcap & H).
    destruct (whole_table_served (S cap)) as (rows & Hr & Hlen); [lia|].
    apply H in Hr. lia.
Qed.

(** C8, amended.  When the index answers a list query whose filter values
    are ASCII text and whose limit and offset are integers from 0 to
    [MAX_SAFE_INTEGER], status and severity are compared for equality with
    the upper-cased parameters, the rows kept are ordered newest first,
    [offset] rows are skipped and at most [limit] rows returned, where
    [limit] is the requested number (100 when the request has none) with no
    maximum applied: the answer has [min limit (matching - offset)] rows. *)
Theorem C8_index_list_page (w : World) (q : ListQuery) (s : State)
    (limit offset : nat) :
  dbFault w = None ->
  sql_count (int_param (q_limit q) 100) = Some limit ->
  sql_count (int_param (q_offset q) 0) = Some offset ->
  Z.of_nat limit <= MAX_SAFE_INTEGER ->
  Z.of_nat offset <= MAX_SAFE_INTEGER ->
  ascii_param (q_severity q) ->
  ascii_param (q_status q) ->
  exists rows,
    handle w (GetComplianceActions q) s = (Resp 200 (PJoined rows), s)
    /\ rows = take limit (drop offset (order_by newer_first (matching q s)))
    /\ length rows = Nat.min limit (length (matching q s) - offset)
    /\ (q_limit q = None -> limit = 100%nat)
    /\ (q_offset q = None -> offset = 0%nat)
    /\ forall r, In r rows ->
         In r (left_join (compliance_actions s) (policies s))
         /\ (forall v, q_status q = Some v -> v <> "" ->
                       status (fst r) = JStr (toUpperCase v))
         /\ (forall v, q_severity q = Some v -> v <> "" ->
                       exists p, snd r = Some p /\ severity p = toUpperCase v).
Proof.
  intros Hd Hl Ho _ _ _ _. eexists.
  split; [apply (index_list_answer w q s limit offset Hd Hl Ho)|].
  fold (matching q s).
  split; [reflexivity|].
  split; [by rewrite length_take, length_drop, order_by_length|].
  split; [intros E; rewrite E in Hl; by injection Hl as <-|].
  split; [intros E; rewrite E in Ho; by injection Ho as <-|].
  intros r Hr.
  apply In_take_drop, order_by_In in Hr. unfold matching in Hr.
  apply filter_In in Hr as [Hin Hw].
  split; [exact Hin|]. split.
  - intros v Hv Hne. rewrite Hv, (filter_param_given v Hne) in Hw.
    by apply where_clause_status in Hw.
  - intros v Hv Hne. rewrite Hv, (filter_param_given v Hne) in Hw.
    by apply where_clause_severity in Hw.
Qed.

Lemma C8_index_list_page_witness :
  exists rows,
    handle quiet_world
           (GetComplianceActions (mkListQuery None (Some "executed") (Some "20") (Some "1")))
           (crowded_state 3)
    = (Resp 200 (PJoined rows), crowded_state 3)
    /\ length rows = 2%nat
    /\ forall r, In r rows -> status (fst r) = JStr "EXECUTED".
Proof.
  destruct (C8_index_list_page quiet_world
              (mkListQuery None (Some "executed") (Some "20") (Some "1"))
              (crowded_state 3) 20 1)
    as (rows & Hrows & _ & Hlen & _ & _ & Hall);
    [reflexivity | reflexivity | reflexivity
     | discriminate | discriminate | exact I | reflexivity |].
  exists rows. split; [exact Hrows|]. split; [exact Hlen|].
  intros r Hr. destruct (Hall r Hr) as (_ & Hst & _).
  apply (Hst "executed"); [reflexivity | discriminate].
Defined.

(** * Further properties of the code *)

(** ** The chaincode as a key-value program *)

(** X1.  [CreatePolicy] on a free key stores the policy and returns it; the
    policy is then what [GetPolicy] answers, [PolicyExists] is true, every
    other key and the event log are untouched, and a second [CreatePolicy]
    under the same id, whatever its other arguments, throws
    [Policy <id> already exists] without changing anything. *)
Theorem CreatePolicy_then_GetPolicy
    (policyId standard control description requiredAction severity : string)
    (s : State) :
  worldState s !! policyId = None ->
  exists s1,
    CreatePolicy policyId standard control description requiredAction severity s
    = (Ok (policy_record policyId standard control description requiredAction severity),
       s1)
    /\ GetPolicy policyId s1
       = (Ok (policy_record policyId standard control description requiredAction
                severity), s1)
    /\ PolicyExists policyId s1 = (Ok true, s1)
    /\ (forall k, k <> policyId -> worldState s1 !! k = worldState s !! k)
    /\ ledgerEvents s1 = ledgerEvents s
    /\ (forall standard' control' description' requiredAction' severity',
           CreatePolicy policyId standard' control' description' requiredAction'
                        severity' s1
           = (Thrown ("Policy " ++ policyId ++ " already exists"), s1)).
Proof.
  intros Hfree. eexists. unfold_chaincode. rewrite Hfree. simpl.
  split; [reflexivity|]. simpl. rewrite lookup_insert_eq.
  repeat split. intros k Hk. by rewrite lookup_insert_ne.
Qed.

Lemma CreatePolicy_then_GetPolicy_witness :
  exists s1,
    CreatePolicy "pol-iso-9" "ISO27001" "A.9" "Access control" "ENABLE_MFA" "HIGH"
                 fabric_state
    = (Ok (policy_record "pol-iso-9" "ISO27001" "A.9" "Access control" "ENABLE_MFA"
             "HIGH"), s1)
    /\ GetPolicy "pol-iso-9" s1
       = (Ok (policy_record "pol-iso-9" "ISO27001" "A.9" "Access control"
                "ENABLE_MFA" "HIGH"), s1).
Proof.
  destruct (CreatePolicy_then_GetPolicy "pol-iso-9" "ISO27001" "A.9" "Access control"
              "ENABLE_MFA" "HIGH" fabric_state)
    as (s1 & H1 & H2 & _); [reflexivity|].
  exists s1. split; [exact H1 | exact H2].
Defined.

(** X2.  [CreatePolicy] never overwrites: whatever its arguments and whether it
    returns or throws, every key that held a record before holds the same
    record afterwards, and no event is emitted. *)
Theorem CreatePolicy_never_overwrites
    (policyId standard control description requiredAction severity : string)
    (s : State) (k : string) (v : gmap string json) :
  worldState s !! k = Some v ->
  worldState (snd (CreatePolicy policyId standard control description requiredAction
                     severity s)) !! k = Some v
  /\ ledgerEvents (snd (CreatePolicy policyId standard control description
                          requiredAction severity s)) = ledgerEvents s.
Proof.
  intros Hk. unfold_chaincode.
  destruct (worldState s !! policyId) eqn:Hp; simpl; [by split|].
  split; [|reflexivity].
  rewrite lookup_insert_ne; [exact Hk|]. intros ->. congruence.
Qed.

(** X3.  [ExecuteComplianceAction] writes unconditionally: from any state, also
    one in which the generated key is already taken, the key holds the new
    record afterwards, [QueryAction] answers it, [QueryAllActions] contains
    it, all other keys are untouched and exactly one
    [ComplianceActionExecuted] event carrying the record is appended. *)
Theorem ExecuteComplianceAction_then_QueryAction (w : World)
    (actionData : gmap string json) (s : State) :
  exists r s1,
    ExecuteComplianceAction w actionData s = (Ok r, s1)
    /\ r = chaincode_record w actionData
    /\ QueryAction (uuid w) s1 = (Ok r, s1)
    /\ (exists l, QueryAllActions s1 = (Ok l, s1) /\ In r l)
    /\ (forall k, k <> uuid w -> worldState s1 !! k = worldState s !! k)
    /\ ledgerEvents s1 = (ledgerEvents s ++ [("ComplianceActionExecuted", r)])%list.
Proof.
  do 2 eexists. split; [reflexivity|]. split; [reflexivity|].
  unfold_chaincode. simpl. rewrite lookup_insert_eq.
  split; [reflexivity|]. split; [|split; [|reflexivity]].
  - eexists. split; [reflexivity|].
    apply filter_In. split.
    + apply list_elem_of_In, list_elem_of_fmap.
      exists (uuid w, chaincode_record w actionData). split; [reflexivity|].
      apply elem_of_map_to_list, lookup_insert_eq.
    + unfold is_complianceAction, chaincode_record. by rewrite lookup_insert_eq.
  - intros k Hk. by rewrite lookup_insert_ne.
Qed.

Lemma decision_entry_fields (w : World) (txId : string) (decision metadata : option json) :
  decision_entry w txId decision metadata !! "txId" = Some (JStr txId) /\
  decision_entry w txId decision metadata !! "docType" = Some (JStr "decision") /\
  decision_entry w txId decision metadata !! "id" = None.
Proof.
  unfold decision_entry. repeat split.
  - rewrite !lookup_insert_ne, !lookup_set_opt_ne by done. apply lookup_singleton_eq.
  - apply lookup_insert_eq.
  - rewrite !lookup_insert_ne, !lookup_set_opt_ne by done. by apply lookup_singleton_ne.
Qed.

Lemma get_prop_not_null (obj : json) (k : string) :
  obj <> JNull -> exists v, get_prop obj k = Ok v.
Proof. destruct obj; simpl; eauto. congruence. Qed.

Lemma values_insert {V} (k : string) (v x : V) (m : gmap string V) :
  In x (snd <$> map_to_list (<[k := v]> m)) ->
  x = v \/ In x (snd <$> map_to_list m).
Proof.
  rewrite <- !list_elem_of_In, !list_elem_of_fmap.
  intros ([k' x'] & -> & H). apply elem_of_map_to_list in H. simpl.
  destruct (decide (k = k')) as [<- | Hne].
  - rewrite lookup_insert_eq in H. left. congruence.
  - rewrite lookup_insert_ne in H by done. right.
    exists (k', x'). split; [reflexivity|]. by apply elem_of_map_to_list.
Qed.

Lemma values_lookup {V} (k : string) (v : V) (m : gmap string V) :
  m !! k = Some v -> In v (snd <$> map_to_list m).
Proof.
  intros H. apply list_elem_of_In, list_elem_of_fmap.
  exists (k, v). split; [reflexivity|]. by apply elem_of_map_to_list.
Qed.

(** X4.  [executeDecision] with a payload other than [null] writes one entry
    under [audit_<txId>], emits it as a [DecisionExecuted] event and answers
    [{txId, status: SUCCESS}]; [QueryDecision] with the same [txId] then
    answers that entry and [QueryAllDecisions] contains it, while all other
    keys are untouched.  With the payload [null] it throws before writing
    anything. *)
Theorem executeDecision_then_QueryDecision (w : World) (txId : string) (s : State) :
  (forall obj : json,
      obj <> JNull ->
      exists entry s1,
        executeDecision w txId obj s
        = (Ok {[ "txId" := JStr txId; "status" := JStr "SUCCESS" ]}, s1)
        /\ worldState s1 !! ("audit_" ++ txId) = Some entry
        /\ QueryDecision txId s1 = (Ok entry, s1)
        /\ entry !! "txId" = Some (JStr txId)
        /\ entry !! "docType" = Some (JStr "decision")
        /\ (exists l, QueryAllDecisions s1 = (Ok l, s1) /\ In entry l)
        /\ (forall k, k <> "audit_" ++ txId -> worldState s1 !! k = worldState s !! k)
        /\ ledgerEvents s1 = (ledgerEvents s ++ [("DecisionExecuted", entry)])%list)
  /\
  (exists m, executeDecision w txId JNull s = (Thrown m, s)).
Proof.
  split; [|eexists; reflexivity].
  intros obj Hobj.
  destruct (get_prop_not_null obj "decision" Hobj) as [d Hd].
  destruct (get_prop_not_null obj "metadata" Hobj) as [md Hmd].
  exists (decision_entry w txId d md). eexists.
  unfold executeDecision. rewrite Hd, Hmd. unfold_chaincode. simpl.
  split; [reflexivity|]. simpl. rewrite lookup_insert_eq.
  destruct (decision_entry_fields w txId d md) as (Ht & Hdoc & _).
  repeat split; try assumption.
  - eexists. split; [reflexivity|]. apply filter_In. split.
    + apply (values_lookup ("audit_" ++ txId)). apply lookup_insert_eq.
    + unfold is_decision. by rewrite Hdoc.
  - intros k Hk. by rewrite lookup_insert_ne.
Qed.

Lemma executeDecision_then_QueryDecision_witness :
  exists entry s1,
    executeDecision quiet_world "tx-01"
      (JObj {[ "decision" := JStr "BLOCK"; "metadata" := JNull ]}) fabric_state
    = (Ok {[ "txId" := JStr "tx-01"; "status" := JStr "SUCCESS" ]}, s1)
    /\ QueryDecision "tx-01" s1 = (Ok entry, s1)
    /\ entry !! "txId" = Some (JStr "tx-01").
Proof.
  destruct (executeDecision_then_QueryDecision quiet_world "tx-01" fabric_state)
    as [H _].
  destruct (H (JObj {[ "decision" := JStr "BLOCK"; "metadata" := JNull ]}))
    as (entry & s1 & H1 & _ & H3 & H4 & _); [discriminate|].
  exists entry, s1. split; [exact H1|]. split; [exact H3 | exact H4].
Defined.

(** ** [GetAllPolicies] *)

Lemma policy_test_scannable (r : gmap string json) :
  scannable r -> policy_test r = Ok (policy_like r).
Proof.
  unfold scannable, policy_test, policy_like.
  intros [H | [i H]].
  - by rewrite H.
  - rewrite H. by destruct (is_policy r).
Qed.

Lemma policy_test_unscannable (r : gmap string json) :
  ~ scannable r -> exists m, policy_test r = Thrown m.
Proof.
  unfold scannable, policy_test. intros H.
  destruct (is_policy r); [exfalso; apply H; by left|].
  destruct (r !! "id") as [[]|] eqn:E; simpl; eauto.
  exfalso. apply H. right. eauto.
Qed.

Lemma scan_policies_scannable (records results : list (gmap string json)) :
  Forall scannable records ->
  scan_policies records results = Ok (results ++ List.filter policy_like records)%list.
Proof.
  revert results. induction records as [|r rest IH]; intros results H; simpl.
  - by rewrite app_nil_r.
  - apply Forall_cons in H as [Hr Hrest].
    rewrite (policy_test_scannable r Hr).
    destruct (policy_like r); rewrite IH by done; [|reflexivity].
    by rewrite <- app_assoc.
Qed.

Lemma scan_policies_unscannable (records results : list (gmap string json)) :
  Exists (fun r => ~ scannable r) records ->
  exists m, scan_policies records results = Thrown m.
Proof.
  intros H. revert results.
  induction H as [r rest Hr | r rest _ IH]; intros results; simpl.
  - destruct (policy_test_unscannable r Hr) as [m ->]. eauto.
  - destruct (policy_test r) as [[|]|m]; eauto.
Qed.

(** X5.  [GetAllPolicies] answers exactly when every scanned record either has
    [docType] [policy] or has a string [id]: it then returns the records
    that have [docType] [policy] or an id beginning with [pol-].  A single
    record of another [docType] without a string id makes it throw. *)
Theorem GetAllPolicies_answers_or_throws (s : State) :
  (Forall scannable (snd <$> map_to_list (worldState s)) ->
   GetAllPolicies s
   = (Ok (List.filter policy_like (snd <$> map_to_list (worldState s))), s))
  /\
  (Exists (fun r => ~ scannable r) (snd <$> map_to_list (worldState s)) ->
   exists m, GetAllPolicies s = (Thrown m, s)).
Proof.
  unfold GetAllPolicies. split; intros H.
  - by rewrite scan_policies_scannable.
  - destruct (scan_policies_unscannable _ [] H) as [m ->]. eauto.
Qed.

Lemma GetAllPolicies_answers_or_throws_witness :
  GetAllPolicies fabric_state = (Ok [], fabric_state)
  /\
  exists m,
    GetAllPolicies
      (set_worldState {[ "audit_tx-01" := {[ "docType" := JStr "decision" ]} ]}
                      fabric_state)
    = (Thrown m,
       set_worldState {[ "audit_tx-01" := {[ "docType" := JStr "decision" ]} ]}
                      fabric_state).
Proof.
  split.
  - apply (GetAllPolicies_answers_or_throws fabric_state). constructor.
  - apply (GetAllPolicies_answers_or_throws
             (set_worldState {[ "audit_tx-01" := {[ "docType" := JStr "decision" ]} ]}
                             fabric_state)).
    simpl. rewrite map_to_list_singleton. simpl.
    apply Exists_cons_hd. intros [H | [i H]]; discriminate H.
Defined.

(** X6.  Once a decision has been recorded, [GetAllPolicies] throws: the entry
    written by [executeDecision] has [docType] [decision] and no [id]. *)
Theorem GetAllPolicies_throws_after_executeDecision (w : World) (txId : string)
    (obj : json) (s : State) :
  obj <> JNull ->
  exists m,
    GetAllPolicies (snd (executeDecision w txId obj s))
    = (Thrown m, snd (executeDecision w txId obj s)).
Proof.
  intros Hobj.
  destruct (get_prop_not_null obj "decision" Hobj) as [d Hd].
  destruct (get_prop_not_null obj "metadata" Hobj) as [md Hmd].
  unfold GetAllPolicies.
  match goal with
  | |- exists m, (scan_policies ?l [], _) = _ =>
      destruct (scan_policies_unscannable l []) as [m ->]; [|eauto]
  end.
  unfold executeDecision. rewrite Hd, Hmd. unfold_chaincode. simpl.
  apply Exists_exists. exists (decision_entry w txId d md). split.
  - apply list_elem_of_In, (values_lookup ("audit_" ++ txId)), lookup_insert_eq.
  - destruct (decision_entry_fields w txId d md) as (_ & Hdoc & Hid).
    unfold scannable, is_policy. rewrite Hdoc, Hid.
    intros [H | [i H]]; discriminate H.
Qed.

Lemma GetAllPolicies_throws_after_executeDecision_witness :
  exists m,
    GetAllPolicies (snd (executeDecision quiet_world "tx-01" (JObj ∅) fabric_state))
    = (Thrown m, snd (executeDecision quiet_world "tx-01" (JObj ∅) fabric_state)).
Proof.
  apply (GetAllPolicies_throws_after_executeDecision quiet_world "tx-01" (JObj ∅)
           fabric_state).
  discriminate.
Defined.

(** ** [InitLedger] and the lookups by key *)

Lemma baseline_inserted (m : gmap string (gmap string json)) (p1 p2 : gmap string json) :
  <["pol-cis-2.1" := p2]>
    (<["pol-nist-ac-1" := p1]>
       (<["pol-cis-2.1" := p2]> (<["pol-nist-ac-1" := p1]> m)))
  = <["pol-cis-2.1" := p2]> (<["pol-nist-ac-1" := p1]> m).
Proof.
  apply map_eq. intros k.
  destruct (decide (k = "pol-cis-2.1")) as [-> | H2].
  - by rewrite !lookup_insert_eq.
  - rewrite !(lookup_insert_ne _ "pol-cis-2.1") by done.
    destruct (decide (k = "pol-nist-ac-1")) as [-> | H1].
    + by rewrite !lookup_insert_eq.
    + by rewrite !lookup_insert_ne by done.
Qed.

Lemma policy_key_record
    (policyId standard control description requiredAction severity : string) :
  policy_key (policy_record policyId standard control description requiredAction
                severity) = policyId.
Proof.
  unfold policy_key, policy_record.
  rewrite !lookup_insert_ne by done. by rewrite lookup_singleton_eq.
Qed.

Lemma CreatePolicy_taken
    (policyId standard control description requiredAction severity : string)
    (s : State) :
  is_Some (worldState s !! policyId) ->
  CreatePolicy policyId standard control description requiredAction severity s
  = (Thrown ("Policy " ++ policyId ++ " already exists"), s).
Proof. intros [v Hv]. unfold_chaincode. by rewrite Hv. Qed.

Lemma InitLedger_state (s : State) :
  InitLedger s
  = (Ok tt,
     set_worldState
       (<["pol-cis-2.1" := policy_record "pol-cis-2.1" "CIS" "CIS-2.1"
                             "Disable SMBv1 protocol." "DISABLE_SMBv1" "CRITICAL"]>
          (<["pol-nist-ac-1" := policy_record "pol-nist-ac-1" "NIST" "AC-1"
                                  "Limit system access to authorized users."
                                  "ACCESS_CONTROL" "HIGH"]>
             (worldState s)))
       s).
Proof.
  unfold InitLedger, baseline_policies, put_policies. unfold_chaincode.
  by rewrite !policy_key_record.
Qed.

(** X7.  [InitLedger], from any state: afterwards [GetPolicy] answers each
    baseline policy under its id, whatever those keys held before; every
    other key and the event log are untouched; running it again changes
    nothing; and [CreatePolicy] under a baseline id throws. *)
Theorem InitLedger_installs_baseline (s : State) :
  exists s1,
    InitLedger s = (Ok tt, s1)
    /\ Forall (fun p => GetPolicy (policy_key p) s1 = (Ok p, s1)) baseline_policies
    /\ (forall k, k <> "pol-nist-ac-1" -> k <> "pol-cis-2.1" ->
                  worldState s1 !! k = worldState s !! k)
    /\ ledgerEvents s1 = ledgerEvents s
    /\ InitLedger s1 = (Ok tt, s1)
    /\ (forall p standard control description requiredAction severity,
           In p baseline_policies ->
           CreatePolicy (policy_key p) standard control description requiredAction
                        severity s1
           = (Thrown ("Policy " ++ policy_key p ++ " already exists"), s1)).
Proof.
  eexists. split; [apply InitLedger_state|].
  split; [|split; [|split; [|split]]].
  - repeat constructor; rewrite policy_key_record; unfold_chaincode; simpl.
    + rewrite lookup_insert_ne by done. by rewrite lookup_insert_eq.
    + by rewrite lookup_insert_eq.
  - intros k H1 H2. simpl. by rewrite !lookup_insert_ne by done.
  - reflexivity.
  - rewrite InitLedger_state. unfold set_worldState. simpl.
    by rewrite baseline_inserted.
  - intros p standard control description requiredAction severity Hp.
    apply CreatePolicy_taken. simpl.
    destruct Hp as [<- | [<- | []]]; rewrite policy_key_record.
    + rewrite lookup_insert_ne by done. rewrite lookup_insert_eq. eauto.
    + rewrite lookup_insert_eq. eauto.
Qed.

(** X8.  The lookups by key do not look at [docType]: after a create request
    served through the Fabric backend, [GetPolicy] with the new id answers
    the compliance action, which is not a policy; and after [CreatePolicy],
    [QueryAction] with the policy's id answers the policy, which is not a
    compliance action. *)
Theorem lookups_by_key_ignore_docType :
  (forall (w : World) (actionData : gmap string json) (s : State),
      valid_request actionData ->
      blockchainEnabled s = true ->
      fabricFault w = None ->
      exists r s1,
        handle w (PostComplianceAction actionData) s = (Resp 200 (PRecord r), s1)
        /\ GetPolicy (uuid w) s1 = (Ok r, s1)
        /\ is_policy r = false)
  /\
  (forall (policyId standard control description requiredAction severity : string)
          (s : State),
      worldState s !! policyId = None ->
      exists p s1,
        CreatePolicy policyId standard control description requiredAction severity s
        = (Ok p, s1)
        /\ QueryAction policyId s1 = (Ok p, s1)
        /\ is_complianceAction p = false).
Proof.
  split.
  - intros w actionData s Hv Hs Hf.
    pose proof (post_success w actionData s Hv (or_intror Hf)) as H.
    cbv zeta in H. rewrite Hs in H.
    do 2 eexists. split; [exact H|].
    unfold_chaincode. split.
    + destruct (dbFault w); simpl; by rewrite lookup_insert_eq.
    + unfold is_policy, chaincode_record. by rewrite lookup_insert_eq.
  - intros policyId standard control description requiredAction severity s Hfree.
    do 2 eexists. unfold_chaincode. rewrite Hfree. simpl.
    split; [reflexivity|]. simpl. rewrite lookup_insert_eq.
    split; [reflexivity|].
    unfold is_complianceAction, policy_record. by rewrite lookup_insert_eq.
Qed.

Lemma lookups_by_key_ignore_docType_witness :
  (exists r s1,
      handle quiet_world (PostComplianceAction pol003_request) fabric_state
      = (Resp 200 (PRecord r), s1)
      /\ GetPolicy (uuid quiet_world) s1 = (Ok r, s1)
      /\ is_policy r = false)
  /\
  (exists p s1,
      CreatePolicy "pol-iso-9" "ISO27001" "A.9" "Access control" "ENABLE_MFA" "HIGH"
                   fabric_state = (Ok p, s1)
      /\ QueryAction "pol-iso-9" s1 = (Ok p, s1)
      /\ is_complianceAction p = false).
Proof.
  destruct lookups_by_key_ignore_docType as [H1 H2]. split.
  - apply (H1 quiet_world pol003_request fabric_state);
      [split; reflexivity | reflexivity | reflexivity].
  - apply (H2 "pol-iso-9" "ISO27001" "A.9" "Access control" "ENABLE_MFA" "HIGH"
              fabric_state).
    reflexivity.
Defined.

(** X9.  The scans by [docType] do not mix: no record is answered both by
    [QueryAllActions] and by [QueryAllDecisions]; [executeDecision] brings
    no new record into the answer of [QueryAllActions], and
    [ExecuteComplianceAction] none into the answer of [QueryAllDecisions]. *)
Theorem scans_by_docType_do_not_mix (w : World) (txId : string) (obj : json)
    (actionData : gmap string json) (s : State) :
  exists la ld la' ld',
    QueryAllActions s = (Ok la, s)
    /\ QueryAllDecisions s = (Ok ld, s)
    /\ QueryAllActions (snd (executeDecision w txId obj s))
       = (Ok la', snd (executeDecision w txId obj s))
    /\ QueryAllDecisions (snd (ExecuteComplianceAction w actionData s))
       = (Ok ld', snd (ExecuteComplianceAction w actionData s))
    /\ (forall r, In r la -> ~ In r ld)
    /\ (forall r, In r la' -> In r la)
    /\ (forall r, In r ld' -> In r ld).
Proof.
  do 4 eexists. do 4 (split; [reflexivity|]).
  split; [|split].
  - intros r Ha Hd. apply filter_In in Ha as [_ Ha]. apply filter_In in Hd as [_ Hd].
    unfold is_complianceAction in Ha. unfold is_decision in Hd.
    destruct (r !! "docType") as [[]|]; try discriminate.
    apply String.eqb_eq in Ha. apply String.eqb_eq in Hd. congruence.
  - intros r Hr. apply filter_In in Hr as [Hin Hact]. apply filter_In.
    split; [|exact Hact].
    unfold executeDecision in Hin.
    destruct (get_prop obj "decision") as [d|m] eqn:Hd;
      destruct (get_prop obj "metadata") as [md|m'] eqn:Hmd;
      unfold_chaincode; simpl in Hin; try exact Hin.
    apply values_insert in Hin as [-> | Hin]; [|exact Hin].
    destruct (decision_entry_fields w txId d md) as (_ & Hdoc & _).
    unfold is_complianceAction in Hact. rewrite Hdoc in Hact. discriminate.
  - intros r Hr. apply filter_In in Hr as [Hin Hdec]. apply filter_In.
    split; [|exact Hdec].
    unfold_chaincode. simpl in Hin.
    apply values_insert in Hin as [-> | Hin]; [|exact Hin].
    unfold is_decision, chaincode_record in Hdec.
    rewrite lookup_insert_eq in Hdec. discriminate.
Qed.

(** ** The two backends compared *)

Lemma chaincode_record_fields (w : World) (actionData : gmap string json) :
  chaincode_record w actionData !! "action" = None /\
  chaincode_record w actionData !! "actionTaken" = actionData !! "action" /\
  chaincode_record w actionData !! "policyId" = actionData !! "policyId" /\
  chaincode_record w actionData !! "status" = Some (JStr "EXECUTED") /\
  chaincode_record w actionData !! "threatDescription"
  = actionData !! "threatDescription".
Proof.
  unfold chaincode_record. repeat split.
  - rewrite lookup_insert_ne, !lookup_set_opt_ne, lookup_insert_ne,
      !lookup_set_opt_ne, lookup_insert_ne by done.
    by apply lookup_singleton_ne.
  - rewrite lookup_insert_ne, !lookup_set_opt_ne, lookup_insert_ne by done.
    apply lookup_set_opt_eq.
    rewrite !lookup_set_opt_ne, lookup_insert_ne by done.
    by apply lookup_singleton_ne.
  - rewrite lookup_insert_ne, !lookup_set_opt_ne, lookup_insert_ne,
      !lookup_set_opt_ne by done.
    apply lookup_set_opt_eq. rewrite lookup_insert_ne by done.
    by apply lookup_singleton_ne.
  - rewrite lookup_insert_ne, !lookup_set_opt_ne by done. apply lookup_insert_eq.
  - rewrite lookup_insert_ne, !lookup_set_opt_ne, lookup_insert_ne,
      lookup_set_opt_ne by done.
    apply lookup_set_opt_eq. rewrite lookup_set_opt_ne, lookup_insert_ne by done.
    by apply lookup_singleton_ne.
Qed.

Lemma sim_record_passthrough (w : World) (actionData : gmap string json) (k : string) :
  ~ In k simulation_fields ->
  simulated_record w actionData !! k = actionData !! k.
Proof.
  unfold simulation_fields. simpl. intros H.
  unfold simulated_record, spread.
  rewrite lookup_insert_ne by (intros <-; tauto).
  rewrite lookup_insert_ne by (intros <-; tauto).
  rewrite lookup_insert_ne by (intros <-; tauto).
  rewrite lookup_union, lookup_singleton_ne by (intros <-; tauto).
  by destruct (actionData !! k).
Qed.

(** X10.  The index row's [action_taken] depends on the backend.  The create route
    mirrors [complianceRecord.action]: the chaincode's record names that
    property [actionTaken], so on the Fabric path the mirrored row has
    [action_taken] [NULL] although the request's [action] was checked to be
    present; on the simulation path it holds the request's [action]. *)
Theorem mirrored_action_by_backend (w : World) (actionData : gmap string json)
    (s : State) :
  valid_request actionData ->
  dbFault w = None ->
  (blockchainEnabled s = true -> fabricFault w = None ->
   exists r row s1,
     handle w (PostComplianceAction actionData) s = (Resp 200 (PRecord r), s1)
     /\ compliance_actions s1 = (compliance_actions s ++ [row])%list
     /\ action_taken row = None
     /\ r !! "actionTaken" = actionData !! "action"
     /\ policy_id row = actionData !! "policyId"
     /\ row_id row = Some (JStr (uuid w))
     /\ status row = JStr "EXECUTED")
  /\
  (blockchainEnabled s = false ->
   exists r row s1,
     handle w (PostComplianceAction actionData) s = (Resp 200 (PRecord r), s1)
     /\ compliance_actions s1 = (compliance_actions s ++ [row])%list
     /\ action_taken row = actionData !! "action"
     /\ r !! "actionTaken" = actionData !! "actionTaken"
     /\ policy_id row = actionData !! "policyId"
     /\ status row = JStr "EXECUTED").
Proof.
  intros Hv Hd. split.
  - intros Hs Hf.
    pose proof (post_success w actionData s Hv (or_intror Hf)) as H.
    cbv zeta in H. rewrite Hs, Hd in H.
    do 3 eexists. split; [exact H|].
    destruct (chaincode_record_fields w actionData) as (Ha & Hat & Hp & Hst & _).
    unfold mirror_row; simpl. rewrite Ha, Hat, Hp, Hst, fabric_record_id.
    repeat split.
  - intros Hs.
    pose proof (post_success w actionData s Hv (or_introl Hs)) as H.
    cbv zeta in H. rewrite Hs, Hd in H.
    do 3 eexists. split; [exact H|].
    unfold mirror_row; simpl. rewrite sim_record_status.
    rewrite (sim_record_passthrough w actionData "action"),
      (sim_record_passthrough w actionData "actionTaken"),
      (sim_record_passthrough w actionData "policyId")
      by (unfold simulation_fields; simpl; intuition discriminate).
    repeat split.
Qed.

Lemma mirrored_action_by_backend_witness :
  (exists r row s1,
      handle quiet_world (PostComplianceAction pol003_request) fabric_state
      = (Resp 200 (PRecord r), s1)
      /\ compliance_actions s1 = [row]
      /\ action_taken row = None
      /\ r !! "actionTaken" = Some (JStr "BLOCK_RDP_PORT"))
  /\
  (exists r row s1,
      handle quiet_world (PostComplianceAction pol003_request) simulation_state
      = (Resp 200 (PRecord r), s1)
      /\ compliance_actions s1 = [row]
      /\ action_taken row = Some (JStr "BLOCK_RDP_PORT")).
Proof.
  split.
  - destruct (mirrored_action_by_backend quiet_world pol003_request fabric_state)
      as [H _]; [split; reflexivity | reflexivity |].
    destruct (H eq_refl eq_refl) as (r & row & s1 & H1 & H2 & H3 & H4 & _).
    exists r, row, s1. repeat split; assumption.
  - destruct (mirrored_action_by_backend quiet_world pol003_request simulation_state)
      as [_ H]; [split; reflexivity | reflexivity |].
    destruct (H eq_refl) as (r & row & s1 & H1 & H2 & H3 & _).
    exists r, row, s1. repeat split; assumption.
Defined.

(** X11.  The chaincode keeps a fixed set of properties and the simulation backend
    keeps everything: a request property outside the chaincode's nine names
    is absent from the Fabric record, while every request property other
    than the four the simulation backend sets itself appears unchanged in the
    simulation record. *)
Theorem request_properties_kept_by_backend (w : World)
    (actionData : gmap string json) (k : string) :
  (~ In k chaincode_fields -> chaincode_record w actionData !! k = None)
  /\
  (~ In k simulation_fields ->
   simulated_record w actionData !! k = actionData !! k).
Proof.
  split; [|apply sim_record_passthrough].
  unfold chaincode_fields. simpl. intros H. unfold chaincode_record.
  rewrite lookup_insert_ne by (intros <-; tauto).
  rewrite !lookup_set_opt_ne by (intros <-; tauto).
  rewrite lookup_insert_ne by (intros <-; tauto).
  rewrite !lookup_set_opt_ne by (intros <-; tauto).
  rewrite lookup_insert_ne by (intros <-; tauto).
  apply lookup_singleton_ne. intros <-. tauto.
Qed.

Lemma request_properties_kept_by_backend_witness :
  chaincode_record quiet_world
    (<["severity" := JStr "CRITICAL"]> pol003_request) !! "severity" = None
  /\
  simulated_record quiet_world
    (<["severity" := JStr "CRITICAL"]> pol003_request) !! "severity"
  = (<["severity" := JStr "CRITICAL"]> pol003_request) !! "severity".
Proof.
  split;
    apply (request_properties_kept_by_backend quiet_world
             (<["severity" := JStr "CRITICAL"]> pol003_request) "severity");
    simpl; intuition discriminate.
Defined.

(** ** Create, then list *)

(** X12.  On the Fabric path a created record is listed straight away: while the
    gateway answers, the list route's answer contains the record; when the
    gateway has gone and the index answers, the list route's answer contains
    the row mirrored at creation, provided the mirror write had succeeded. *)
Theorem fabric_create_then_list (w w' : World) (actionData : gmap string json)
    (s : State) :
  valid_request actionData ->
  blockchainEnabled s = true ->
  fabricFault w = None ->
  exists r s1,
    handle w (PostComplianceAction actionData) s = (Resp 200 (PRecord r), s1)
    /\ (fabricFault w' = None ->
        exists l,
          handle w' GetApiComplianceActions s1 = (Resp 200 (PActions l), s1)
          /\ In r l)
    /\ (fabricFault w' <> None -> dbFault w' = None -> dbFault w = None ->
        exists rows,
          handle w' GetApiComplianceActions s1 = (Resp 200 (PRows rows), s1)
          /\ In (mirror_row w r) rows).
Proof.
  intros Hv Hs Hf.
  pose proof (post_success w actionData s Hv (or_intror Hf)) as H.
  cbv zeta in H. rewrite Hs in H.
  do 2 eexists. split; [exact H|]. split.
  - intros Hf'. eexists. unfold_handlers. rewrite Hf'.
    destruct (dbFault w); simpl; rewrite Hs; simpl;
      (split; [reflexivity|]); apply filter_In;
      (split; [apply (values_lookup (uuid w)), lookup_insert_eq
              | unfold is_complianceAction, chaincode_record;
                by rewrite lookup_insert_eq]).
  - intros Hf' Hd' Hd. eexists. unfold_handlers. rewrite Hd, Hd'. simpl.
    rewrite Hs. destruct (fabricFault w'); [|contradiction]. simpl.
    split; [reflexivity|].
    apply order_by_In, in_or_app. right. left. reflexivity.
Qed.

Lemma fabric_create_then_list_witness :
  exists r s1 l rows,
    handle quiet_world (PostComplianceAction pol003_request) fabric_state
    = (Resp 200 (PRecord r), s1)
    /\ handle later_world GetApiComplianceActions s1 = (Resp 200 (PActions l), s1)
    /\ In r l
    /\ handle (with_fabricFault (Some "timeout") later_world)
              GetApiComplianceActions s1 = (Resp 200 (PRows rows), s1)
    /\ In (mirror_row quiet_world r) rows.
Proof.
  destruct (fabric_create_then_list quiet_world later_world pol003_request fabric_state)
    as (r & s1 & H1 & H2 & _); [split; reflexivity | reflexivity | reflexivity |].
  destruct (H2 eq_refl) as (l & Hl & Hin).
  destruct (fabric_create_then_list quiet_world
              (with_fabricFault (Some "timeout") later_world)
              pol003_request fabric_state)
    as (r' & s1' & H1' & _ & H3); [split; reflexivity | reflexivity | reflexivity |].
  destruct H3 as (rows & Hrows & Hrin); [discriminate | reflexivity | reflexivity |].
  rewrite H1 in H1'. injection H1' as <- <-.
  exists r, s1, l, rows. repeat split; assumption.
Defined.

(** ** What requests do to the stores *)

Lemma handle_stores_grow (w : World) (r : request) (s : State) :
  simActions s `prefix_of` simActions (snd (handle w r s)) /\
  compliance_actions s `prefix_of` compliance_actions (snd (handle w r s)) /\
  ledgerEvents s `prefix_of` ledgerEvents (snd (handle w r s)) /\
  (forall k, is_Some (worldState s !! k) ->
             is_Some (worldState (snd (handle w r s)) !! k)).
Proof.
  destruct r; crush_handler;
    repeat split; try reflexivity; try (by apply prefix_app_r); try done;
    intros k Hk; (destruct (decide (k = uuid w)) as [-> | Hne];
      [rewrite lookup_insert_eq; eauto | by rewrite lookup_insert_ne]).
Qed.

Lemma sim_list_answer (w : World) (s : State) :
  blockchainEnabled s = false ->
  handle w GetApiComplianceActions s = (Resp 200 (PActions (simActions s)), s).
Proof. intros Hs. unfold_handlers. by rewrite Hs. Qed.

Lemma run_stores_grow (trace : list (World * request)) (s : State) :
  simActions s `prefix_of` simActions (snd (run trace s)) /\
  compliance_actions s `prefix_of` compliance_actions (snd (run trace s)) /\
  ledgerEvents s `prefix_of` ledgerEvents (snd (run trace s)) /\
  (forall k, is_Some (worldState s !! k) ->
             is_Some (worldState (snd (run trace s)) !! k)).
Proof.
  revert s. induction trace as [|[w r] rest IH]; intros s.
  - simpl. repeat split; try reflexivity. done.
  - rewrite run_cons. simpl.
    destruct (handle_stores_grow w r s) as (H1 & H2 & H3 & H4).
    destruct (IH (snd (handle w r s))) as (I1 & I2 & I3 & I4).
    repeat split; try (etrans; eassumption). intros k Hk. by apply I4, H4.
Qed.

(** X13.  No request removes anything: over any sequence of requests the records
    of the simulation backend, the rows of the index table and the Fabric
    event log only get longer, what they held stays in place, and every key
    of the Fabric world state stays present. *)
Theorem stores_only_grow (trace : list (World * request)) (s : State) :
  simActions s `prefix_of` simActions (snd (run trace s)) /\
  compliance_actions s `prefix_of` compliance_actions (snd (run trace s)) /\
  ledgerEvents s `prefix_of` ledgerEvents (snd (run trace s)) /\
  (forall k, is_Some (worldState s !! k) ->
             is_Some (worldState (snd (run trace s)) !! k)).
Proof. apply run_stores_grow. Qed.

(** X14.  A record created in simulation mode stays listed: whatever requests are
    served afterwards, the list route of app.js keeps answering with a list
    that contains it; and when its mirror write succeeded, the mirrored row
    stays in the index table. *)
Theorem simulated_record_stays_listed (w w' : World) (actionData : gmap string json)
    (s : State) (trace : list (World * request)) :
  valid_request actionData ->
  blockchainEnabled s = false ->
  exists r s1,
    handle w (PostComplianceAction actionData) s = (Resp 200 (PRecord r), s1)
    /\ (exists l,
           handle w' GetApiComplianceActions (snd (run trace s1))
           = (Resp 200 (PActions l), snd (run trace s1))
           /\ In r l)
    /\ (dbFault w = None ->
        In (mirror_row w r) (compliance_actions (snd (run trace s1)))).
Proof.
  intros Hv Hs.
  pose proof (post_success w actionData s Hv (or_introl Hs)) as H.
  cbv zeta in H. rewrite Hs in H.
  set (r := simulated_record w actionData) in *.
  set (s1 := match dbFault w with
             | Some _ => set_simActions (simActions s ++ [r]) s
             | None =>
                 set_compliance_actions
                   (compliance_actions (set_simActions (simActions s ++ [r]) s)
                    ++ [mirror_row w r])
                   (set_simActions (simActions s ++ [r]) s)
             end) in *.
  exists r, s1. split; [exact H|].
  assert (blockchainEnabled s1 = false) as Hs1
    by (subst s1; destruct (dbFault w); exact Hs).
  assert (In r (simActions s1)) as Hr.
  { subst s1. destruct (dbFault w); simpl;
      apply in_or_app; right; left; reflexivity. }
  destruct (run_stores_grow trace s1) as ([k1 H1] & [k2 H2] & _).
  split.
  - exists (simActions (snd (run trace s1))). split.
    + apply sim_list_answer. by rewrite run_blockchainEnabled.
    + rewrite H1. apply in_or_app. by left.
  - intros Hd. rewrite H2. apply in_or_app. left.
    subst s1. rewrite Hd. simpl. apply in_or_app. right. left. reflexivity.
Qed.

Lemma simulated_record_stays_listed_witness :
  exists r s1 l,
    handle quiet_world (PostComplianceAction pol003_request) simulation_state
    = (Resp 200 (PRecord r), s1)
    /\ handle later_world GetApiComplianceActions
              (snd (run [(later_world, PostComplianceAction request_with_id)] s1))
       = (Resp 200 (PActions l),
          snd (run [(later_world, PostComplianceAction request_with_id)] s1))
    /\ In r l.
Proof.
  destruct (simulated_record_stays_listed quiet_world later_world pol003_request
              simulation_state [(later_world, PostComplianceAction request_with_id)])
    as (r & s1 & H1 & (l & H2 & H3) & _); [split; reflexivity | reflexivity |].
  exists r, s1, l. split; [exact H1|]. split; [exact H2 | exact H3].
Defined.

(** X15.  A create request changes the state exactly when it is answered with
    status 200.  Then one record is added to the active ledger (one entry of
    the simulation backend, or one key and one event of the Fabric channel)
    and at most one row to the index: the mirrored row when the index
    answers, none otherwise.  With any other status nothing is written. *)
Theorem create_writes_once_or_not_at_all (w : World)
    (actionData : gmap string json) (s : State) :
  (code (fst (handle w (PostComplianceAction actionData) s)) <> 200%nat ->
   snd (handle w (PostComplianceAction actionData) s) = s)
  /\
  (code (fst (handle w (PostComplianceAction actionData) s)) = 200%nat ->
   exists r,
     fst (handle w (PostComplianceAction actionData) s) = Resp 200 (PRecord r)
     /\ (if blockchainEnabled s
         then worldState (snd (handle w (PostComplianceAction actionData) s))
              = <[uuid w := r]> (worldState s)
              /\ ledgerEvents (snd (handle w (PostComplianceAction actionData) s))
                 = (ledgerEvents s ++ [("ComplianceActionExecuted", r)])%list
              /\ simActions (snd (handle w (PostComplianceAction actionData) s))
                 = simActions s
         else simActions (snd (handle w (PostComplianceAction actionData) s))
              = (simActions s ++ [r])%list
              /\ worldState (snd (handle w (PostComplianceAction actionData) s))
                 = worldState s
              /\ ledgerEvents (snd (handle w (PostComplianceAction actionData) s))
                 = ledgerEvents s)
     /\ compliance_actions (snd (handle w (PostComplianceAction actionData) s))
        = (compliance_actions s
           ++ match dbFault w with
              | None => [mirror_row w r]
              | Some _ => []
              end)%list).
Proof.
  unfold_handlers.
  destruct (negb (truthy (actionData !! "policyId"))
            || negb (truthy (actionData !! "action"))) eqn:Hv; simpl.
  { split; [reflexivity | discriminate]. }
  destruct (blockchainEnabled s) eqn:Hs; simpl.
  - destruct (fabricFault w) eqn:Hf; simpl.
    { split; [reflexivity | discriminate]. }
    destruct (dbFault w); simpl; (split; [congruence|]); intros _;
      eexists; repeat split; by rewrite ?app_nil_r.
  - destruct (dbFault w); simpl; (split; [congruence|]); intros _;
      eexists; repeat split; by rewrite ?app_nil_r.
Qed.

Lemma create_writes_once_or_not_at_all_witness :
  snd (handle quiet_world (PostComplianceAction ∅) simulation_state) = simulation_state
  /\
  exists r,
    fst (handle (with_dbFault (Some "pool closed") quiet_world)
                (PostComplianceAction pol003_request) simulation_state)
    = Resp 200 (PRecord r)
    /\ simActions (snd (handle (with_dbFault (Some "pool closed") quiet_world)
                               (PostComplianceAction pol003_request) simulation_state))
       = [r]
    /\ compliance_actions
         (snd (handle (with_dbFault (Some "pool closed") quiet_world)
                      (PostComplianceAction pol003_request) simulation_state))
       = [].
Proof.
  split.
  - apply (create_writes_once_or_not_at_all quiet_world ∅ simulation_state).
    discriminate.
  - destruct (create_writes_once_or_not_at_all
                (with_dbFault (Some "pool closed") quiet_world)
                pol003_request simulation_state) as [_ H].
    destruct (H eq_refl) as (r & H1 & (H2 & _) & H3).
    exists r. repeat split; assumption.
Defined.

(** X16.  The mode reported by [GET /api/blockchain/status] is the choice made at
    start-up, however many requests have been served since: [enabled] is
    true exactly when the handshake succeeded, [mode] is [production] then
    and [simulation] otherwise, and asking changes nothing. *)
Theorem reported_mode_is_startup_choice (d : Deployment) (e : Stores)
    (trace : list (World * request)) (w : World) :
  exists enabled : bool,
    handle w GetApiBlockchainStatus (snd (run trace (startServer d e)))
    = (Resp 200 (PStatus (Report enabled
                            (if enabled then "production" else "simulation"))),
       snd (run trace (startServer d e)))
    /\ (enabled = true <-> handshake_succeeds d).
Proof.
  exists (blockchainEnabled (startServer d e)).
  split; [|apply startServer_flag].
  unfold_handlers. by rewrite run_blockchainEnabled.
Qed.

(** ** Order and completeness of the index page *)

Lemma insert_by_Permutation {A} (before : A -> A -> bool) (x : A) (l : list A) :
  insert_by before x l ≡ₚ x :: l.
Proof.
  induction l as [|y l IH]; simpl; [reflexivity|].
  destruct (before y x); [|reflexivity].
  rewrite IH. apply perm_swap.
Qed.

Lemma order_by_Permutation {A} (before : A -> A -> bool) (l : list A) :
  order_by before l ≡ₚ l.
Proof.
  unfold order_by. induction l as [|x l IH]; simpl; [reflexivity|].
  by rewrite insert_by_Permutation, IH.
Qed.

Lemma insert_newer_first_sorted (x : Row * option Policy)
    (l : list (Row * option Policy)) :
  StronglySorted not_older l ->
  StronglySorted not_older (insert_by newer_first x l).
Proof.
  induction 1 as [|y l Hl IH Hy]; simpl.
  - repeat constructor.
  - unfold newer_first at 1. destruct (Z.ltb_spec (created_at (fst x)) (created_at (fst y))).
    + constructor; [exact IH|].
      rewrite (insert_by_Permutation newer_first x l).
      constructor; [unfold not_older; lia | exact Hy].
    + constructor; [by constructor|].
      constructor; [unfold not_older; lia|].
      eapply Forall_impl; [exact Hy|]. unfold not_older. intros z Hz. lia.
Qed.

Lemma order_by_newer_first_sorted (l : list (Row * option Policy)) :
  StronglySorted not_older (order_by newer_first l).
Proof.
  unfold order_by. induction l as [|x l IH]; simpl; [constructor|].
  by apply insert_newer_first_sorted.
Qed.

Lemma StronglySorted_drop {A} (R : A -> A -> Prop) (n : nat) (l : list A) :
  StronglySorted R l -> StronglySorted R (drop n l).
Proof.
  intros H. revert n. induction H as [|x l Hl IH Hx]; intros [|n]; simpl;
    try constructor; auto.
Qed.

Lemma StronglySorted_take {A} (R : A -> A -> Prop) (n : nat) (l : list A) :
  StronglySorted R l -> StronglySorted R (take n l).
Proof.
  intros H. revert n. induction H as [|x l Hl IH Hx]; intros [|n]; simpl;
    try constructor; auto.
  by apply Forall_take.
Qed.

(** X17.  For a list query whose filter values are ASCII text and whose
    limit and offset are integers from 0 to [MAX_SAFE_INTEGER], the page
    answered by [GET /compliance/actions] is ordered newest first by
    [created_at]; and a first page whose limit is at least the number of
    matching rows holds each matching row exactly once. *)
Theorem index_page_newest_first_and_complete (w : World) (q : ListQuery) (s : State)
    (limit offset : nat) :
  dbFault w = None ->
  sql_count (int_param (q_limit q) 100) = Some limit ->
  sql_count (int_param (q_offset q) 0) = Some offset ->
  Z.of_nat limit <= MAX_SAFE_INTEGER ->
  Z.of_nat offset <= MAX_SAFE_INTEGER ->
  ascii_param (q_severity q) ->
  ascii_param (q_status q) ->
  exists rows,
    handle w (GetComplianceActions q) s = (Resp 200 (PJoined rows), s)
    /\ StronglySorted not_older rows
    /\ (offset = 0%nat -> (length (matching q s) <= limit)%nat ->
        rows ≡ₚ matching q s).
Proof.
  intros Hd Hl Ho _ _ _ _. eexists.
  split; [apply (index_list_answer w q s limit offset Hd Hl Ho)|].
  fold (matching q s). split.
  - apply StronglySorted_take, StronglySorted_drop, order_by_newer_first_sorted.
  - intros -> Hlen. rewrite drop_0.
    rewrite take_ge by (by rewrite order_by_length).
    apply order_by_Permutation.
Qed.

Lemma index_page_newest_first_and_complete_witness :
  exists rows,
    handle quiet_world
           (GetComplianceActions (mkListQuery None (Some "executed") (Some "50") None))
           (crowded_state 3)
    = (Resp 200 (PJoined rows), crowded_state 3)
    /\ StronglySorted not_older rows
    /\ rows ≡ₚ matching (mkListQuery None (Some "executed") (Some "50") None)
                        (crowded_state 3).
Proof.
  destruct (index_page_newest_first_and_complete quiet_world
              (mkListQuery None (Some "executed") (Some "50") None)
              (crowded_state 3) 50 0)
    as (rows & H1 & H2 & H3);
    [reflexivity | reflexivity | reflexivity
     | discriminate | discriminate | exact I | reflexivity |].
  exists rows. split; [exact H1|]. split; [exact H2|].
  apply H3; [reflexivity|]. vm_compute. lia.
Defined.

(** ** Case in the filters *)

Lemma upper_ascii_idem (c : ascii) : upper_ascii (upper_ascii c) = upper_ascii c.
Proof. destruct c as [[] [] [] [] [] [] [] []]; reflexivity. Qed.

Lemma toUpperCase_idem (t : string) : toUpperCase (toUpperCase t) = toUpperCase t.
Proof.
  induction t as [|c t IH]; simpl; [reflexivity|].
  by rewrite upper_ascii_idem, IH.
Qed.

Lemma toUpperCase_empty (t : string) : toUpperCase t = "" <-> t = "".
Proof. destruct t; simpl; split; congruence. Qed.

Lemma filter_param_toUpperCase (v : option string) :
  filter_param (toUpperCase <$> v) = filter_param v.
Proof.
  destruct v as [t|]; simpl; [|reflexivity].
  destruct (String.eqb_spec t "") as [-> | Hne]; [reflexivity|].
  destruct (String.eqb_spec (toUpperCase t) "") as [E | _].
  - apply (proj1 (toUpperCase_empty t)) in E. contradiction.
  - by rewrite toUpperCase_idem.
Qed.

(** X18.  The filters of [GET /compliance/actions] ignore the case of the
    parameters but not that of the stored values: upper-casing [severity]
    and [status] in the query changes nothing in the answer, and a row whose
    stored status is not already in upper case is returned under no status
    filter at all. *)
Theorem filters_fold_case_of_parameters_only (w : World) (s : State) :
  (forall severity status limit offset,
      handle w (GetComplianceActions
                  (mkListQuery (toUpperCase <$> severity) (toUpperCase <$> status)
                               limit offset)) s
      = handle w (GetComplianceActions (mkListQuery severity status limit offset)) s)
  /\
  (forall (q : ListQuery) (v stored : string) (rows : list (Row * option Policy))
          (r : Row * option Policy),
      q_status q = Some v -> v <> "" ->
      status (fst r) = JStr stored -> toUpperCase stored <> stored ->
      fst (handle w (GetComplianceActions q) s) = Resp 200 (PJoined rows) ->
      ~ In r rows).
Proof.
  split.
  - intros severity status limit offset. unfold_handlers. simpl.
    by rewrite !filter_param_toUpperCase.
  - intros q v stored rows r Hq Hv Hst Hlow Hresp Hin.
    unfold_handlers. simpl in Hresp.
    destruct (dbFault w); [discriminate|].
    destruct (sql_count (int_param (q_limit q) 100)); [|discriminate].
    destruct (sql_count (int_param (q_offset q) 0)); [|discriminate].
    simpl in Hresp. injection Hresp as <-.
    apply In_take_drop, order_by_In, filter_In in Hin as [_ Hin].
    rewrite Hq, (filter_param_given v Hv) in Hin.
    apply where_clause_status in Hin. rewrite Hst in Hin.
    injection Hin as ->. apply Hlow, toUpperCase_idem.
Qed.

Lemma filters_fold_case_of_parameters_only_witness :
  handle quiet_world
         (GetComplianceActions (mkListQuery None (Some "EXECUTED") None None))
         (crowded_state 2)
  = handle quiet_world
           (GetComplianceActions (mkListQuery None (Some "executed") None None))
           (crowded_state 2)
  /\
  exists rows,
    fst (handle quiet_world
           (GetComplianceActions (mkListQuery None (Some "executed") None None))
           (set_compliance_actions
              [mkRow None None None (JStr "") (JNum 0) (JStr "Executed") "t" 7]
              simulation_state))
    = Resp 200 (PJoined rows)
    /\ ~ In (mkRow None None None (JStr "") (JNum 0) (JStr "Executed") "t" 7,
             @None Policy) rows.
Proof.
  destruct (filters_fold_case_of_parameters_only quiet_world
              (set_compliance_actions
                 [mkRow None None None (JStr "") (JNum 0) (JStr "Executed") "t" 7]
                 simulation_state)) as [_ H2].
  destruct (filters_fold_case_of_parameters_only quiet_world (crowded_state 2))
    as [H1 _].
  split.
  - apply (H1 None (Some "executed") None None).
  - eexists. split; [reflexivity|].
    apply (H2 (mkListQuery None (Some "executed") None None) "executed" "Executed");
      [reflexivity | discriminate | reflexivity | discriminate | reflexivity].
Defined.

(** ** The pager and the router *)

Lemma digits_decimal (d : Decimal.uint) (seen : bool) (acc : nat) :
  d <> Decimal.Nil \/ seen = true ->
  digits 10 seen (Z.of_nat acc) (DecimalString.NilEmpty.string_of_uint d)
  = Some (Z.of_nat (Nat.of_uint_acc d acc)).
Proof.
  revert seen acc. induction d as [|d IH|d IH|d IH|d IH|d IH|d IH|d IH|d IH|d IH|d IH];
    intros seen acc H.
  1: { destruct H as [H | ->]; [congruence | reflexivity]. }
  all: cbn [DecimalString.NilEmpty.string_of_uint digits Nat.of_uint_acc];
    match goal with
    | |- context [digit_value ?c] =>
        let v := eval vm_compute in (digit_value c) in
        change (digit_value c) with v
    end;
    cbv iota beta;
    match goal with
    | |- context [?k <? 10] => change (k <? 10) with true
    end;
    cbv iota;
    rewrite <- (IH true) by (by right); f_equal;
    rewrite Nat.tail_mul_spec; lia.
Qed.

Lemma to_double_safe (n : Z) : n <= MAX_SAFE_INTEGER -> to_double n = Some n.
Proof.
  unfold to_double, MAX_SAFE_INTEGER. intros H.
  destruct (Z.ltb_spec n (2 ^ 53)); [reflexivity | lia].
Qed.

Lemma parseInt_decimal (d : Decimal.uint) :
  d <> Decimal.Nil ->
  Z.of_nat (Nat.of_uint d) <= MAX_SAFE_INTEGER ->
  parseInt (DecimalString.NilEmpty.string_of_uint d) = Some (Z.of_nat (Nat.of_uint d)).
Proof.
  intros H Hsafe.
  assert (parseInt (DecimalString.NilEmpty.string_of_uint d)
          = digits 10 false (Z.of_nat 0)
                   (DecimalString.NilEmpty.string_of_uint d) ≫= to_double)
    as ->.
  { destruct d as [|d|d|d|d|d|d|d|d|d|d]; try congruence; try reflexivity.
    destruct d; reflexivity. }
  unfold Nat.of_uint in *.
  rewrite (digits_decimal d false 0) by (by left). simpl.
  by apply to_double_safe.
Qed.

(** Up to [MAX_SAFE_INTEGER], [parseInt] reads back the decimal text of a
    non-negative integer. *)
Lemma parseInt_Number_toString (n : nat) :
  Z.of_nat n <= MAX_SAFE_INTEGER ->
  parseInt (Number_toString n) = Some (Z.of_nat n).
Proof.
  intros Hsafe. unfold Number_toString, DecimalString.NilZero.string_of_uint.
  pose proof (DecimalNat.Unsigned.of_to n) as Hn.
  destruct (Nat.to_uint n) as [|d|d|d|d|d|d|d|d|d|d] eqn:E;
    try (rewrite <- Hn in Hsafe |- *; apply parseInt_decimal;
         [discriminate | exact Hsafe]).
  simpl in Hn. by subst n.
Qed.

Lemma pager_step_invariant (m : ComplianceManager) (e : pager_event) :
  (1 <= currentPage m)%nat -> pageSize m = 20%nat ->
  (1 <= currentPage (pager_step m e))%nat
  /\ pageSize (pager_step m e) = 20%nat
  /\ (currentPage (pager_step m e) <= currentPage m + 1)%nat.
Proof.
  intros Hp Hs. destruct e; simpl; [lia | | lia].
  unfold previousPage. destruct (Nat.ltb_spec 1 (currentPage m)); simpl; lia.
Qed.

Lemma pager_fold_invariant (events : list pager_event) (m : ComplianceManager) :
  (1 <= currentPage m)%nat -> pageSize m = 20%nat ->
  (1 <= currentPage (fold_left pager_step events m))%nat
  /\ pageSize (fold_left pager_step events m) = 20%nat
  /\ (currentPage (fold_left pager_step events m)
      <= currentPage m + length events)%nat.
Proof.
  revert m. induction events as [|e rest IH]; intros m Hp Hs; simpl.
  - repeat split; [exact Hp | exact Hs | lia].
  - destruct (pager_step_invariant m e Hp Hs) as (Hp' & Hs' & Hle).
    destruct (IH _ Hp' Hs') as (H1 & H2 & H3). repeat split; [exact H1 | exact H2 | lia].
Qed.

(** X19.  Over any sequence of [Next], [Previous] and filter changes short
    enough for the pager's numbers to stay exact, the page number stays at
    least 1 and the page size 20, [Previous] undoes [Next], and the query
    string carries [limit=20] and an offset of [20 * (page - 1)], which is
    at most [MAX_SAFE_INTEGER], with the three filter values.  The request
    goes to [/api/compliance/actions], which app.js serves without reading
    the query string: what is displayed is what a fresh pager would display,
    under the current page's label. *)
Theorem pager_keeps_page_and_offset (events : list pager_event) (w : World) (s : State) :
  20 * Z.of_nat (length events) <= MAX_SAFE_INTEGER ->
  (1 <= currentPage (pager_run events))%nat
  /\ pageSize (pager_run events) = 20%nat
  /\ previousPage (nextPage (pager_run events)) = pager_run events
  /\ loadComplianceActions_params (pager_run events)
     = [("limit", "20");
        ("offset", Number_toString ((currentPage (pager_run events) - 1) * 20));
        ("severity", filter_severity (pager_run events));
        ("status", filter_status (pager_run events));
        ("search", filter_search (pager_run events))]
  /\ Z.of_nat ((currentPage (pager_run events) - 1) * 20) <= MAX_SAFE_INTEGER
  /\ loadComplianceActions w (pager_run events) s
     = (match fst (loadComplianceActions w new_ComplianceManager s) with
        | Displayed actions _ => Displayed actions (currentPage (pager_run events))
        | ErrorShown message => ErrorShown message
        end,
        snd (loadComplianceActions w new_ComplianceManager s)).
Proof.
  intros Hlen. unfold pager_run.
  destruct (pager_fold_invariant events new_ComplianceManager) as (Hp & Hs & Hle);
    [simpl; lia | reflexivity |].
  set (m := fold_left pager_step events new_ComplianceManager) in *.
  simpl in Hle.
  split; [exact Hp|]. split; [exact Hs|]. split; [|split; [|split]].
  - unfold previousPage, nextPage. simpl.
    destruct (Nat.ltb_spec 1 (currentPage m + 1)); [|lia].
    destruct m as [p sz a b c]. simpl. f_equal. lia.
  - unfold loadComplianceActions_params. by rewrite Hs.
  - lia.
  - unfold loadComplianceActions.
    destruct (handle w GetApiComplianceActions s) as [resp s']. cbn [fst snd].
    by destruct ((200 <=? code resp) && (code resp <=? 299))%nat.
Qed.

Lemma pager_keeps_page_and_offset_witness :
  currentPage (pager_run [NextPage; NextPage; PreviousPage]) = 2%nat
  /\
  loadComplianceActions_params (pager_run [NextPage; NextPage; PreviousPage])
  = [("limit", "20"); ("offset", "20"); ("severity", ""); ("status", "");
     ("search", "")]
  /\
  previousPage (nextPage (pager_run [NextPage; NextPage; PreviousPage]))
  = pager_run [NextPage; NextPage; PreviousPage].
Proof.
  destruct (pager_keeps_page_and_offset [NextPage; NextPage; PreviousPage]
              quiet_world simulation_state) as (_ & _ & H3 & H4 & _);
    [discriminate|].
  split; [reflexivity|]. split; [exact H4 | exact H3].
Defined.

(** ** The error middleware *)

(** X20.  In production every error is answered alike: status 500 and a fixed
    body, whatever the error's message, stack or status, while the log entry
    still carries the message and stack.  So a URL that matches no route,
    which [notFoundHandler] turns into an error of status 404, is answered
    404 with [Not found - <url>] outside production and 500 in production;
    the stack is sent only in development. *)
Theorem error_responses_by_environment (NODE_ENV : option string)
    (url method stack : string) (err err' : JsError) :
  log_message (fst (errorHandler NODE_ENV url method err)) = err_message err
  /\ log_stack (fst (errorHandler NODE_ENV url method err)) = err_stack err
  /\
  (NODE_ENV = Some "production" ->
   snd (errorHandler NODE_ENV url method err)
   = snd (errorHandler NODE_ENV url method err')
   /\ fst (snd (errorHandler NODE_ENV url method (notFoundHandler url stack)))
      = 500%nat)
  /\
  (NODE_ENV <> Some "production" ->
   snd (errorHandler NODE_ENV url method (notFoundHandler url stack))
   = (404%nat,
      mkErrorBody ("Not found - " ++ url) None
        (if bool_decide (NODE_ENV = Some "development") then Some stack else None))).
Proof.
  unfold errorHandler, notFoundHandler. simpl.
  split; [reflexivity|]. split; [reflexivity|]. split; intros H.
  - rewrite !bool_decide_eq_true_2 by exact H. by split.
  - by rewrite bool_decide_eq_false_2 by exact H.
Qed.

Lemma error_responses_by_environment_witness :
  fst (snd (errorHandler (Some "production") "/nowhere" "GET"
              (notFoundHandler "/nowhere" "Error: Not found"))) = 500%nat
  /\
  snd (errorHandler (Some "test") "/nowhere" "GET"
         (notFoundHandler "/nowhere" "Error: Not found"))
  = (404%nat, mkErrorBody "Not found - /nowhere" None None).
Proof.
  split.
  - apply (error_responses_by_environment (Some "production") "/nowhere" "GET"
             "Error: Not found" (mkJsError "" None None) (mkJsError "" None None)).
    reflexivity.
  - apply (error_responses_by_environment (Some "test") "/nowhere" "GET"
             "Error: Not found" (mkJsError "" None None) (mkJsError "" None None)).
    discriminate.
Defined.

(** ** Concrete runs of the remaining statements *)

Lemma CreatePolicy_never_overwrites_witness :
  worldState
    (snd (CreatePolicy "pol-nist-ac-1" "X" "X" "X" "X" "LOW"
            (snd (InitLedger fabric_state)))) !! "pol-nist-ac-1"
  = Some (policy_record "pol-nist-ac-1" "NIST" "AC-1"
            "Limit system access to authorized users." "ACCESS_CONTROL" "HIGH").
Proof.
  apply (CreatePolicy_never_overwrites "pol-nist-ac-1" "X" "X" "X" "X" "LOW"
           (snd (InitLedger fabric_state)) "pol-nist-ac-1").
  reflexivity.
Defined.

Lemma ExecuteComplianceAction_then_QueryAction_witness :
  exists r s1,
    ExecuteComplianceAction quiet_world pol003_request fabric_state = (Ok r, s1)
    /\ QueryAction (uuid quiet_world) s1 = (Ok r, s1)
    /\ worldState s1 !! "pol-nist-ac-1" = worldState fabric_state !! "pol-nist-ac-1".
Proof.
  destruct (ExecuteComplianceAction_then_QueryAction quiet_world pol003_request
              fabric_state) as (r & s1 & H1 & _ & H2 & _ & H3 & _).
  exists r, s1. split; [exact H1|]. split; [exact H2|].
  apply H3. discriminate.
Defined.

Lemma InitLedger_installs_baseline_witness :
  exists s1,
    InitLedger fabric_state = (Ok tt, s1)
    /\ InitLedger s1 = (Ok tt, s1)
    /\ worldState s1 !! "audit_tx-01" = worldState fabric_state !! "audit_tx-01"
    /\ CreatePolicy "pol-cis-2.1" "CIS" "CIS-2.1" "" "" "LOW" s1
       = (Thrown "Policy pol-cis-2.1 already exists", s1).
Proof.
  destruct (InitLedger_installs_baseline fabric_state)
    as (s1 & H1 & _ & H3 & _ & H5 & H6).
  exists s1. split; [exact H1|]. split; [exact H5|]. split.
  - apply H3; discriminate.
  - apply (H6 (policy_record "pol-cis-2.1" "CIS" "CIS-2.1"
                 "Disable SMBv1 protocol." "DISABLE_SMBv1" "CRITICAL")).
    right. left. reflexivity.
Defined.

Lemma scans_by_docType_do_not_mix_witness :
  exists la la',
    QueryAllActions (snd (ExecuteComplianceAction quiet_world pol003_request fabric_state))
    = (Ok la, snd (ExecuteComplianceAction quiet_world pol003_request fabric_state))
    /\ QueryAllActions
         (snd (executeDecision later_world "tx-01" (JObj ∅)
                 (snd (ExecuteComplianceAction quiet_world pol003_request fabric_state))))
       = (Ok la',
          snd (executeDecision later_world "tx-01" (JObj ∅)
                 (snd (ExecuteComplianceAction quiet_world pol003_request fabric_state))))
    /\ forall r, In r la' -> In r la.
Proof.
  destruct (scans_by_docType_do_not_mix later_world "tx-01" (JObj ∅) pol003_request
              (snd (ExecuteComplianceAction quiet_world pol003_request fabric_state)))
    as (la & ld & la' & ld' & H1 & _ & H3 & _ & _ & H6 & _).
  exists la, la'. split; [exact H1|]. split; [exact H3 | exact H6].
Defined.

Lemma stores_only_grow_witness :
  simulation_state.(simActions)
    `prefix_of`
    simActions (snd (run [(quiet_world, PostComplianceAction pol003_request);
                          (later_world, PostComplianceAction request_with_id)]
                         simulation_state))
  /\
  is_Some (worldState
             (snd (run [(later_world, PostComplianceAction request_with_id)]
                       (snd (handle quiet_world (PostComplianceAction pol003_request)
                                    fabric_state)))) !! uuid quiet_world).
Proof.
  split.
  - apply (stores_only_grow [(quiet_world, PostComplianceAction pol003_request);
                             (later_world, PostComplianceAction request_with_id)]
             simulation_state).
  - apply (stores_only_grow [(later_world, PostComplianceAction request_with_id)]
             (snd (handle quiet_world (PostComplianceAction pol003_request)
                          fabric_state))).
    eexists. reflexivity.
Defined.

Lemma reported_mode_is_startup_choice_witness :
  exists enabled : bool,
    handle later_world GetApiBlockchainStatus
           (snd (run [(quiet_world, PostComplianceAction pol003_request)]
                     (startServer unreachable_deployment empty_stores)))
    = (Resp 200 (PStatus (Report enabled
                            (if enabled then "production" else "simulation"))),
       snd (run [(quiet_world, PostComplianceAction pol003_request)]
                (startServer unreachable_deployment empty_stores)))
    /\ enabled = false.
Proof.
  destruct (reported_mode_is_startup_choice unreachable_deployment empty_stores
              [(quiet_world, PostComplianceAction pol003_request)] later_world)
    as (enabled & H1 & H2).
  exists enabled. split; [exact H1|].
  destruct enabled; [|reflexivity].
  destruct (proj1 H2 eq_refl) as (_ & _ & _ & _ & _ & _ & Hg & _).
  discriminate Hg.
Defined.
